(** * Agentic RAG orchestration graph: a shallow embedding

    The development follows [backend/app/agents/agentic_rag/graph]: the
    chains (router, graders, generation), the four nodes (retrieve,
    grade_documents, generate, web_search) and the LangGraph workflow
    that wires them.  External services (the Gemini chat model, the
    Qdrant retriever, the Tavily search tool) are parameters; every call
    to them either returns a value or raises. *)

From Stdlib Require Import ZArith String Ascii List Bool Lia.
From stdpp Require Import base option list gmap strings pretty.

Local Open Scope string_scope.
Local Open Scope list_scope.

(** ** Python values, exceptions and strings *)

Module Py.

(** Exceptions that the modelled code can meet.  [AttributeError] is
    what Python raises for [obj.invoke] when [obj] has no such
    attribute ([None], or a plain function); [ServiceError] stands for
    whatever an external client raises. *)
Inductive exn : Type :=
| AttributeError (msg : string)
| KeyError (key : string)
| ServiceError (msg : string).

(** A computation that returns or raises. *)
Inductive result (A : Type) : Type :=
| Ok (a : A)
| Raise (e : exn).
Arguments Ok {A} a.
Arguments Raise {A} e.

Definition bind {A B : Type} (m : result A) (k : A -> result B) : result B :=
  match m with
  | Ok a => k a
  | Raise e => Raise e
  end.

(** [try: body except Exception: handler]. *)
Definition try_except {A : Type} (body : result A) (handler : exn -> A) : A :=
  match body with
  | Ok a => a
  | Raise e => handler e
  end.

(** Values stored in a metadata dict ([Dict[str, Any]]): strings, ints,
    [None], and anything else (the similarity score, a float) kept by
    its repr. *)
Inductive value : Type :=
| PyNone
| PyStr (s : string)
| PyInt (z : Z)
| PyOther (repr : string).

(** [v == s] for a string literal [s]. *)
Definition eq_str (v : value) (s : string) : bool :=
  match v with
  | PyStr t => String.eqb t s
  | _ => false
  end.

(** [d.get(k)]: [None] when the key is absent. *)
Definition dict_get (d : gmap string value) (k : string) : value :=
  default PyNone (d !! k).

(** [d.get(k, dflt)]. *)
Definition dict_get_default (d : gmap string value) (k : string) (dflt : value) : value :=
  default dflt (d !! k).

(** [str.lower] on ASCII text. *)
Definition lower_ascii (c : ascii) : ascii :=
  let n := nat_of_ascii c in
  if (65 <=? n)%nat && (n <=? 90)%nat then ascii_of_nat (n + 32) else c.

Fixpoint lower (s : string) : string :=
  match s with
  | EmptyString => EmptyString
  | String c r => String (lower_ascii c) (lower r)
  end.

(** The ASCII characters [str.strip] removes. *)
Definition is_space (c : ascii) : bool :=
  let n := nat_of_ascii c in
  ((9 <=? n)%nat && (n <=? 13)%nat) || ((28 <=? n)%nat && (n <=? 32)%nat).

Fixpoint lstrip (s : string) : string :=
  match s with
  | EmptyString => EmptyString
  | String c r => if is_space c then lstrip r else s
  end.

(** [rstrip] keeps a character when it is not a space or when something
    is kept after it. *)
Fixpoint rstrip (s : string) : string :=
  match s with
  | EmptyString => EmptyString
  | String c r =>
      match rstrip r with
      | EmptyString => if is_space c then EmptyString else String c EmptyString
      | r' => String c r'
      end
  end.

Definition strip (s : string) : string := rstrip (lstrip s).

(** [needle in hay] on strings. *)
Fixpoint contains (needle hay : string) : bool :=
  String.prefix needle hay ||
  match hay with
  | EmptyString => false
  | String _ r => contains needle r
  end.

(** [sep.join(xs)]. *)
Fixpoint join (sep : string) (xs : list string) : string :=
  match xs with
  | [] => ""
  | [x] => x
  | x :: r => x +:+ sep +:+ join sep r
  end.

Definition newline : string := String (ascii_of_nat 10) EmptyString.

End Py.

(** stdpp's monad notation [x ← m; k] for computations that may raise. *)
#[export] Instance result_ret : MRet Py.result := @Py.Ok.
#[export] Instance result_bind : MBind Py.result := fun A B k m => Py.bind m k.

(** ** state.py: documents and the graph state *)

Module ImageDocument.
(** [class ImageDocument(TypedDict)]. *)
Record t : Type := mk {
  page_content : string;
  page_number : Py.value;
  metadata : gmap string Py.value
}.
End ImageDocument.

Module GraphState.
(** [class GraphState(TypedDict)]: the four keys of the state of a turn. *)
Record t : Type := mk {
  question : string;
  generation : string;
  web_search : bool;
  documents : list ImageDocument.t
}.
End GraphState.

Module Update.
(** What a node returns: a dict with some of the state's keys, which
    LangGraph writes over the state. *)
Record t : Type := mk {
  documents : option (list ImageDocument.t);
  question : option string;
  web_search : option bool;
  generation : option string
}.

Definition apply (u : t) (s : GraphState.t) : GraphState.t :=
  GraphState.mk
    (default (GraphState.question s) (question u))
    (default (GraphState.generation s) (generation u))
    (default (GraphState.web_search s) (web_search u))
    (default (GraphState.documents s) (documents u)).
End Update.

(** [doc.get("metadata", {}).get("type") != "text"]: the test every
    consumer uses to tell an image page from web-search text. *)
Definition is_image (doc : ImageDocument.t) : bool :=
  negb (Py.eq_str (Py.dict_get (ImageDocument.metadata doc) "type") "text").

(** ** chains/: requests to the chat model *)

(** One part of a multimodal message: [{"type": "image_url", ...}] or
    [{"type": "text", ...}]. *)
Inductive part : Type :=
| image_url (url : string)
| text (body : string).

(** The image part a page contributes to a request. *)
Definition image_part (doc : ImageDocument.t) : part :=
  image_url (ImageDocument.page_content doc).

(** [HumanMessage(content=parts)]. *)
Record HumanMessage : Type := { content : list part }.

(** [llm.invoke(messages)]: the response's [content], or an exception. *)
Definition chat_model : Type := list HumanMessage -> Py.result string.

(** [llm.with_structured_output(T)] behind a [ChatPromptTemplate]: it
    receives the formatted [(role, text)] messages. *)
Definition structured_model (T : Type) : Type :=
  list (string * string) -> Py.result T.

Module GradeDocuments.
Record t : Type := mk { binary_score : string }.
End GradeDocuments.

Module GradeHallucinations.
Record t : Type := mk { binary_score : bool }.
End GradeHallucinations.

Module GradeAnswer.
Record t : Type := mk { binary_score : bool }.
End GradeAnswer.

Module RouteQuery.
(** [datasource: Literal["vectorstore", "websearch"]]. *)
Inductive literal : Type := vectorstore | websearch.

Definition to_str (d : literal) : string :=
  match d with
  | vectorstore => "vectorstore"
  | websearch => "websearch"
  end.

Record t : Type := mk { datasource : literal }.
End RouteQuery.

Module retrieval_grader_py.

Definition text_prompt (page_content question : string) : string :=
  "You are a grader assessing relevance of a retrieved document to a user question.

Document content: " +:+ page_content +:+ "

User question: " +:+ question +:+ "

Instructions:
1. If the document contains keywords or semantic meaning related to the question, grade it as relevant
2. Give a binary score 'yes' or 'no' to indicate whether the document is relevant to the question

Respond with just 'yes' if relevant or 'no' if not relevant.".

Definition image_prompt (question : string) : string :=
  "You are a grader assessing relevance of a retrieved image document to a user question.

User question: " +:+ question +:+ "

Instructions:
1. Carefully examine the image above
2. If the image contains visual information, text, or content related to the question, grade it as relevant
3. Give a binary score 'yes' or 'no' to indicate whether the document is relevant to the question

Respond with just 'yes' if relevant or 'no' if not relevant.".

(** The message parts for one document: text grading for web-search
    text, multimodal grading for a page image. *)
Definition parts (question : string) (document : ImageDocument.t) : list part :=
  if Py.eq_str (Py.dict_get (ImageDocument.metadata document) "type") "text"
  then [text (text_prompt (ImageDocument.page_content document) question)]
  else [image_url (ImageDocument.page_content document);
        text (image_prompt question)].

(** [retrieval_grader(inputs)]. *)
Definition retrieval_grader (llm : option chat_model)
    (question : string) (document : ImageDocument.t) : Py.result GradeDocuments.t :=
  match llm with
  | None => Py.Ok (GradeDocuments.mk "yes")
  | Some llm =>
      Py.Ok (Py.try_except
        (response ← llm [{| content := parts question document |}];
         let response_text := Py.strip (Py.lower response) in
         let binary_score := if Py.contains "yes" response_text then "yes" else "no" in
         Py.Ok (GradeDocuments.mk binary_score))
        (fun _ => GradeDocuments.mk "yes"))
  end.

End retrieval_grader_py.

Module hallucination_grader_py.

Definition prompt (generation : string) : string :=
  "You are a grader assessing whether an LLM generation is grounded in / supported by the images provided above.

Generation to evaluate: " +:+ generation +:+ "

Instructions:
1. Carefully examine the images provided above
2. Determine if the generation is supported by what you can see in the images
3. Look for specific details, facts, or information in the images that support or contradict the generation
4. Give a binary score 'yes' or 'no'. 'Yes' means that the answer is grounded in / supported by the set of images

Respond with just 'yes' if the generation is grounded in the images, or 'no' if it is not grounded.".

(** One turn of the loop over [documents]: the state is [parts] and
    [image_count]. *)
Definition add_image (acc : list part * nat) (doc : ImageDocument.t) : list part * nat :=
  let '(parts, image_count) := acc in
  if is_image doc && (image_count <? 3)%nat
  then (parts ++ [image_url (ImageDocument.page_content doc)], (image_count + 1)%nat)
  else (parts, image_count).

(** The whole message: the images the loop kept, then the grading
    prompt. *)
Definition parts (documents : list ImageDocument.t) (generation : string) : list part :=
  fst (fold_left add_image documents ([], 0%nat)) ++ [text (prompt generation)].

(** [hallucination_grader(inputs)]. *)
Definition hallucination_grader (llm : option chat_model)
    (documents : list ImageDocument.t) (generation : string)
    : Py.result GradeHallucinations.t :=
  match llm with
  | None => Py.Ok (GradeHallucinations.mk true)
  | Some llm =>
      Py.Ok (Py.try_except
        (response ← llm [{| content := parts documents generation |}];
         let response_text := Py.strip (Py.lower response) in
         let binary_score :=
           Py.contains "yes" response_text || Py.contains "true" response_text in
         Py.Ok (GradeHallucinations.mk binary_score))
        (fun _ => GradeHallucinations.mk true))
  end.

End hallucination_grader_py.

Module generation_py.

Definition prompt_text (question : string) : string :=
  "Based on the images provided above, please answer the following question: " +:+ question +:+ "

Instructions:
1. Carefully examine all the images provided
2. Provide a comprehensive and accurate answer based on what you can observe in the images
3. If the information needed to answer the question is not clearly visible in the images, state this clearly
4. Be specific and reference details you can see in the images when possible
5. If multiple images are provided, consider information from all of them in your answer

Question: " +:+ question +:+ "

Answer:".

(** One turn of the loop over [documents]. *)
Definition add_image (parts : list part) (doc : ImageDocument.t) : list part :=
  if is_image doc
  then parts ++ [image_url (ImageDocument.page_content doc)]
  else parts.

(** The request: the loop's image parts, then the prompt. *)
Definition parts (question : string) (documents : list ImageDocument.t) : list part :=
  fold_left add_image documents [] ++ [text (prompt_text question)].

(** [generation_chain(inputs)] with [inputs = {"context": documents,
    "question": question}]. *)
Definition generation_chain (llm : option chat_model)
    (documents : list ImageDocument.t) (question : string) : Py.result string :=
  match llm with
  | None => Py.Ok "Error: LLM not initialized. Please check your API key configuration."
  | Some llm => llm [{| content := parts question documents |}]
  end.

End generation_py.

Module answer_grader_py.

Definition system : string :=
  "You are a grader assessing whether an answer addresses / resolves a question "
  +:+ Py.newline +:+ " " +:+ Py.newline
  +:+ "         Give a binary score 'yes' or 'no'. Yes' means that the answer resolves the question.".

Definition human (question generation : string) : string :=
  "User question: " +:+ Py.newline +:+ Py.newline +:+ " " +:+ question +:+ " "
  +:+ Py.newline +:+ Py.newline +:+ " LLM generation: " +:+ generation.

(** The module's [answer_grader]: the chain [answer_prompt |
    structured_llm_grader] when the model was built, else [None]. *)
Definition answer_grader (llm : option (structured_model GradeAnswer.t))
    : option (string -> string -> Py.result GradeAnswer.t) :=
  match llm with
  | Some structured_llm_grader =>
      Some (fun question generation =>
              structured_llm_grader
                [("system", system); ("human", human question generation)])
  | None => None
  end.

End answer_grader_py.

Module router_py.

Definition system : string :=
  "You are an expert at routing a user question to a vectorstore or web search.
    The vectorstore contains document images (like PDFs, CVs, reports) with visual and textual content.
    Use the vectorstore for questions about documents, personal information, qualifications, experience, skills, or any content that would typically be found in documents.
    Use web-search for general knowledge questions, current events, or information not typically found in personal/professional documents.".

(** What the name [question_router] can be bound to: a LangChain
    runnable, which has an [invoke] method, or a plain Python
    function, which is only callable. *)
Inductive router : Type :=
| Runnable (invoke : string -> Py.result RouteQuery.t)
| Function (call : string -> RouteQuery.t).

(** [def default_router(inputs)]. *)
Definition default_router (inputs : string) : RouteQuery.t :=
  RouteQuery.mk RouteQuery.vectorstore.

(** The module's [question_router]: the chain when the model and its
    structured wrapper were built, else [default_router]. *)
Definition question_router (llm : option (structured_model RouteQuery.t)) : router :=
  match llm with
  | Some structured_llm_router =>
      Runnable (fun question =>
                  structured_llm_router [("system", system); ("human", question)])
  | None => Function default_router
  end.

(** The attribute lookup [router.invoke]. *)
Definition invoke (r : router) : Py.result (string -> Py.result RouteQuery.t) :=
  match r with
  | Runnable f => Py.Ok f
  | Function _ => Py.Raise (Py.AttributeError "'function' object has no attribute 'invoke'")
  end.

End router_py.

(** ** nodes/: the four steps of a turn *)

Module Document.
(** The LangChain [Document] the retriever returns. *)
Record t : Type := mk {
  page_content : string;
  metadata : gmap string Py.value
}.
End Document.

Module TavilyResult.
(** One entry of the search tool's ["results"]; only ["content"] is
    read. *)
Record t : Type := mk {
  title : string;
  url : string;
  content : string
}.
End TavilyResult.

Module TavilyResponse.
(** The dict the search tool returns; [results] is [None] when the
    ["results"] key is missing. *)
Record t : Type := mk { results : option (list TavilyResult.t) }.
End TavilyResponse.

(** A node: from the state to the dict of keys it sets, or an exception. *)
Definition node_action : Type := GraphState.t -> Py.result Update.t.

Module nodes.

(** *** retrieve.py *)

(** The loop body: convert one retrieved document and append it. *)
Definition to_image_doc (doc : Document.t) : ImageDocument.t :=
  ImageDocument.mk
    (Document.page_content doc)
    (Py.dict_get_default (Document.metadata doc) "page" (Py.PyInt 0))
    (Document.metadata doc).

(** [retrieve(state)]; [retriever] is [get_retriever(...).invoke]. *)
Definition retrieve (retriever : string -> Py.result (list Document.t)) : node_action :=
  fun state =>
    let question := GraphState.question state in
    documents ← retriever question;
    let image_docs :=
      fold_left (fun image_docs doc => image_docs ++ [to_image_doc doc]) documents [] in
    Py.Ok (Update.mk (Some image_docs) (Some question) None None).

(** *** grade_documents.py *)

Section grade_documents.
(** The name [retrieval_grader] as the node calls it. *)
Variable retrieval_grader : string -> ImageDocument.t -> Py.result GradeDocuments.t.

(** One turn of the loop; the state is [filtered_docs] and
    [web_search]. *)
Definition grade_one (question : string)
    (acc : list ImageDocument.t * bool) (doc : ImageDocument.t)
    : list ImageDocument.t * bool :=
  let '(filtered_docs, web_search) := acc in
  Py.try_except
    (score ← retrieval_grader question doc;
     let grade := GradeDocuments.binary_score score in
     if String.eqb (Py.lower grade) "yes"
     then Py.Ok (filtered_docs ++ [doc], web_search)
     else Py.Ok (filtered_docs, true))
    (fun _ => (filtered_docs ++ [doc], web_search)).

(** The loop over [documents], from [filtered_docs = []] and
    [web_search = False]. *)
Definition grade_loop (question : string) (documents : list ImageDocument.t)
    : list ImageDocument.t * bool :=
  fold_left (grade_one question) documents ([], false).

(** [grade_documents(state)]. *)
Definition grade_documents : node_action :=
  fun state =>
    let question := GraphState.question state in
    let documents := GraphState.documents state in
    let '(filtered_docs, web_search) := grade_loop question documents in
    Py.Ok (Update.mk (Some filtered_docs) (Some question) (Some web_search) None).
End grade_documents.

(** *** generate.py *)

Definition fallback_generation (question : string) : string :=
  "I apologize, but I encountered an error while processing the images to answer your question: "
  +:+ question
  +:+ ". Please try rephrasing your question or check if the images are properly formatted.".

(** [generate(state)]; [generation_chain] is the name the node calls. *)
Definition generate
    (generation_chain : list ImageDocument.t -> string -> Py.result string)
    : node_action :=
  fun state =>
    let question := GraphState.question state in
    let documents := GraphState.documents state in
    Py.Ok (Py.try_except
      (generation ← generation_chain documents question;
       Py.Ok (Update.mk (Some documents) (Some question) None (Some generation)))
      (fun _ =>
         Update.mk (Some documents) (Some question) None
                   (Some (fallback_generation question)))).

(** *** web_search.py *)

(** The document that wraps the joined snippets. *)
Definition web_doc (joined_tavily_result : string) : ImageDocument.t :=
  ImageDocument.mk
    joined_tavily_result
    (Py.PyInt (-1))
    (<["type" := Py.PyStr "text"]> (<["source" := Py.PyStr "web_search"]> ∅)).

(** [web_search(state)]; [web_search_tool] is the tool's [invoke]. *)
Definition web_search
    (web_search_tool : string -> Py.result TavilyResponse.t) : node_action :=
  fun state =>
    let question := GraphState.question state in
    let documents := GraphState.documents state in
    response ← web_search_tool question;
    tavily_results ←
      match TavilyResponse.results response with
      | Some r => Py.Ok r
      | None => Py.Raise (Py.KeyError "results")
      end;
    let joined_tavily_result :=
      Py.join Py.newline (map TavilyResult.content tavily_results) in
    let documents :=
      match documents with
      | [] => [web_doc joined_tavily_result]
      | _ :: _ => documents ++ [web_doc joined_tavily_result]
      end in
    Py.Ok (Update.mk (Some documents) (Some question) None None).

End nodes.

(** ** LangGraph's [StateGraph], as far as the workflow uses it *)

Module StateGraph.

(** A routing function: it reads the state and returns a Python value
    (a label, or [None] when the function falls off its end), or
    raises. *)
Definition path : Type := GraphState.t -> Py.result Py.value.

(** A conditional edge: the routing function and the dict from its
    labels to node names. *)
Record branch : Type := {
  route : path;
  path_map : gmap string string
}.

Record t : Type := mk {
  node_table : list (string * node_action);
  edges : list (string * string);
  branches : list (string * branch);
  entry_point : option branch
}.

Definition empty : t := mk [] [] [] None.

Definition add_node (name : string) (action : node_action) (g : t) : t :=
  mk (node_table g ++ [(name, action)]) (edges g) (branches g) (entry_point g).

Definition add_edge (start_key end_key : string) (g : t) : t :=
  mk (node_table g) (edges g ++ [(start_key, end_key)]) (branches g) (entry_point g).

Definition add_conditional_edges (source : string) (p : path)
    (m : gmap string string) (g : t) : t :=
  mk (node_table g) (edges g)
     (branches g ++ [(source, {| route := p; path_map := m |})]) (entry_point g).

Definition set_conditional_entry_point (p : path) (m : gmap string string) (g : t) : t :=
  mk (node_table g) (edges g) (branches g) (Some {| route := p; path_map := m |}).

(** [END], the name of the terminal node. *)
Definition END : string := "__end__".

(** Where a branch sends the turn: the routing function's label looked
    up in the branch's dict. *)
Definition resolve (b : branch) (s : GraphState.t) : Py.result string :=
  label ← route b s;
  match label with
  | Py.PyStr l =>
      match path_map b !! l with
      | Some dest => Py.Ok dest
      | None => Py.Raise (Py.KeyError l)
      end
  | _ => Py.Raise (Py.KeyError "None")
  end.

Fixpoint resolve_all (bs : list branch) (s : GraphState.t) : Py.result (list string) :=
  match bs with
  | [] => Py.Ok []
  | b :: r =>
      dest ← resolve b s;
      dests ← resolve_all r s;
      Py.Ok (dest :: dests)
  end.

Definition starts_at {A : Type} (n : string) (e : string * A) : bool :=
  String.eqb (fst e) n.

(** The nodes that run after node [n] has finished in state [s]: the
    targets of [n]'s plain edges, then those of its conditional
    edges. *)
Definition successors (g : t) (n : string) (s : GraphState.t) : Py.result (list string) :=
  let direct := map snd (List.filter (starts_at n) (edges g)) in
  routed ← resolve_all (map snd (List.filter (starts_at n) (branches g))) s;
  Py.Ok (direct ++ routed).

(** The node a turn starts at. *)
Definition entry (g : t) (s : GraphState.t) : Py.result string :=
  match entry_point g with
  | Some b => resolve b s
  | None => Py.Raise (Py.KeyError "__start__")
  end.

Fixpoint lookup_node (n : string) (tbl : list (string * node_action)) : option node_action :=
  match tbl with
  | [] => None
  | (m, a) :: r => if String.eqb m n then Some a else lookup_node n r
  end.

(** One step of a turn: run node [n], write its result over the state,
    and compute what runs next. *)
Definition step (g : t) (n : string) (s : GraphState.t)
    : Py.result (GraphState.t * list string) :=
  match lookup_node n (node_table g) with
  | None => Py.Raise (Py.KeyError n)
  | Some action =>
      u ← action s;
      let s' := Update.apply u s in
      next ← successors g n s';
      Py.Ok (s', next)
  end.

End StateGraph.

(** ** graph.py *)

Module graph.
Section workflow.

(** The node names of [consts.py]. *)
Variables RETRIEVE GRADE_DOCUMENTS GENERATE WEBSEARCH : string.

(** The names [graph.py] imports from the chains and nodes. *)
Variable hallucination_grader :
  list ImageDocument.t -> string -> Py.result GradeHallucinations.t.
Variable answer_grader : option (string -> string -> Py.result GradeAnswer.t).
Variable question_router : router_py.router.
Variables retrieve grade_documents generate web_search : node_action.

(** [decide_to_generate(state)]. *)
Definition decide_to_generate (state : GraphState.t) : string :=
  if GraphState.web_search state then WEBSEARCH else GENERATE.

(** The attribute lookup [answer_grader.invoke]. *)
Definition answer_grader_invoke : Py.result (string -> string -> Py.result GradeAnswer.t) :=
  match answer_grader with
  | Some chain => Py.Ok chain
  | None => Py.Raise (Py.AttributeError "'NoneType' object has no attribute 'invoke'")
  end.

(** [grade_generation_grounded_in_documents_and_question(state)]. *)
Definition grade_generation_grounded_in_documents_and_question
    (state : GraphState.t) : string :=
  let question := GraphState.question state in
  let documents := GraphState.documents state in
  let generation := GraphState.generation state in
  Py.try_except
    (let image_documents := List.filter is_image documents in
     hallucination_grade ←
       match image_documents with
       | _ :: _ =>
           score ← hallucination_grader image_documents generation;
           Py.Ok (GradeHallucinations.binary_score score)
       | [] => Py.Ok true
       end;
     if (hallucination_grade : bool)
     then
       invoke ← answer_grader_invoke;
       score ← invoke question generation;
       let answer_grade := GradeAnswer.binary_score score in
       if answer_grade then Py.Ok "useful" else Py.Ok "not useful"
     else Py.Ok "not supported")
    (fun _ => "useful").

(** [route_question(state)]. *)
Definition route_question (state : GraphState.t) : Py.result Py.value :=
  let question := GraphState.question state in
  invoke ← router_py.invoke question_router;
  source ← invoke question;
  let datasource := RouteQuery.to_str (RouteQuery.datasource source) in
  if String.eqb datasource WEBSEARCH then Py.Ok (Py.PyStr WEBSEARCH)
  else if String.eqb datasource "vectorstore" then Py.Ok (Py.PyStr RETRIEVE)
  else Py.Ok Py.PyNone.

(** The module-level construction of [workflow], call by call. *)
Definition workflow : StateGraph.t :=
  let w := StateGraph.empty in
  let w := StateGraph.add_node RETRIEVE retrieve w in
  let w := StateGraph.add_node GRADE_DOCUMENTS grade_documents w in
  let w := StateGraph.add_node GENERATE generate w in
  let w := StateGraph.add_node WEBSEARCH web_search w in
  let w := StateGraph.set_conditional_entry_point
             route_question
             (<[RETRIEVE := RETRIEVE]> (<[WEBSEARCH := WEBSEARCH]> ∅)) w in
  let w := StateGraph.add_edge RETRIEVE GRADE_DOCUMENTS w in
  let w := StateGraph.add_conditional_edges
             GRADE_DOCUMENTS
             (fun state => Py.Ok (Py.PyStr (decide_to_generate state)))
             (<[GENERATE := GENERATE]> (<[WEBSEARCH := WEBSEARCH]> ∅)) w in
  let w := StateGraph.add_conditional_edges
             GENERATE
             (fun state =>
                Py.Ok (Py.PyStr (grade_generation_grounded_in_documents_and_question state)))
             (<["not useful" := WEBSEARCH]>
                (<["useful" := StateGraph.END]>
                   (<["not supported" := GENERATE]> ∅))) w in
  let w := StateGraph.add_edge WEBSEARCH GENERATE w in
  w.

End workflow.
End graph.

(** ** Sample data

    A small corpus and stub services, used to run the definitions. *)

Module sample.

Definition page (n : Z) (url : string) : ImageDocument.t :=
  ImageDocument.mk url (Py.PyInt n)
    (<["score" := Py.PyOther "0.71"]>
       (<["source" := Py.PyStr "cv.pdf"]> (<["page" := Py.PyInt n]> ∅))).

Definition page0 : ImageDocument.t := page 0 "data:image/png;base64,AAAA".
Definition page1 : ImageDocument.t := page 1 "data:image/png;base64,BBBB".
Definition page2 : ImageDocument.t := page 2 "data:image/png;base64,CCCC".
Definition page3 : ImageDocument.t := page 3 "data:image/png;base64,DDDD".
Definition page4 : ImageDocument.t := page 4 "data:image/png;base64,EEEE".

Definition snippet : ImageDocument.t :=
  nodes.web_doc "Cairo is the capital of Egypt.".

Definition state (docs : list ImageDocument.t) : GraphState.t :=
  GraphState.mk "What is his education?" "" false docs.

(** A relevance grader that answers YES for page 0, no for page 1 and
    fails for every other page. *)
Definition grader (question : string) (doc : ImageDocument.t)
    : Py.result GradeDocuments.t :=
  match ImageDocument.page_number doc with
  | Py.PyInt 0 => Py.Ok (GradeDocuments.mk "YES")
  | Py.PyInt 1 => Py.Ok (GradeDocuments.mk "no")
  | _ => Py.Raise (Py.ServiceError "429 quota exceeded")
  end.

(** A retriever that finds two pages, the second without a page
    number. *)
Definition retriever (question : string) : Py.result (list Document.t) :=
  Py.Ok [Document.mk "data:image/png;base64,AAAA" (<["page" := Py.PyInt 7]> ∅);
         Document.mk "data:image/png;base64,BBBB" (<["source" := Py.PyStr "cv.pdf"]> ∅)].

(** A search tool that finds two snippets, one that finds none, and
    one that is down. *)
Definition search (question : string) : Py.result TavilyResponse.t :=
  Py.Ok (TavilyResponse.mk
           (Some [TavilyResult.mk "Egypt" "https://example.org/egypt" "Cairo";
                  TavilyResult.mk "Nile" "https://example.org/nile" "Nile"])).

Definition search_nothing (question : string) : Py.result TavilyResponse.t :=
  Py.Ok (TavilyResponse.mk (Some [])).

Definition search_down (question : string) : Py.result TavilyResponse.t :=
  Py.Raise (Py.ServiceError "tavily unreachable").

(** Node names as in the LangChain tutorial this graph follows. *)
Definition RETRIEVE : string := "retrieve".
Definition GRADE_DOCUMENTS : string := "grade_documents".
Definition GENERATE : string := "generate".
Definition WEBSEARCH : string := "websearch".

(** Stub classifiers. *)
Definition grounded (documents : list ImageDocument.t) (generation : string)
    : Py.result GradeHallucinations.t :=
  Py.Ok (GradeHallucinations.mk true).

Definition addresses (question generation : string) : Py.result GradeAnswer.t :=
  Py.Ok (GradeAnswer.mk true).

(** A chat model that always answers yes, and one that is down. *)
Definition says_yes : chat_model := fun messages => Py.Ok " Yes ".

Definition model_down : chat_model :=
  fun messages => Py.Raise (Py.ServiceError "503 unavailable").

(** The workflow over these services, for a given search tool and a
    given binding of [question_router]. *)
Definition workflow (question_router : router_py.router)
    (web_search_tool : string -> Py.result TavilyResponse.t) : StateGraph.t :=
  graph.workflow RETRIEVE GRADE_DOCUMENTS GENERATE WEBSEARCH
    grounded (Some addresses) question_router
    (nodes.retrieve retriever)
    (nodes.grade_documents grader)
    (nodes.generate (generation_py.generation_chain (Some says_yes)))
    (nodes.web_search web_search_tool).

(** A router chain that sends every question to the vector store. *)
Definition to_vectorstore : structured_model RouteQuery.t :=
  fun messages => Py.Ok (RouteQuery.mk RouteQuery.vectorstore).

Definition router_down : structured_model RouteQuery.t :=
  fun messages => Py.Raise (Py.ServiceError "503 unavailable").

End sample.

(** ** ingestion.py: the points written to the store and the retriever *)

Module ScoredPoint.
(** A hit of [client.search]: its payload dict and its score (a float,
    kept by its repr). *)
Record t : Type := mk {
  payload : gmap string Py.value;
  score : string
}.
End ScoredPoint.

Module PointStruct.
(** [PointStruct(id=..., vector=..., payload=...)]. *)
Record t (vector : Type) : Type := mk {
  id : nat;
  vector_of : vector;
  payload : gmap string Py.value
}.
Arguments mk {vector} id vector_of payload.
Arguments id {vector} _.
Arguments vector_of {vector} _.
Arguments payload {vector} _.
End PointStruct.

Module ingestion.
Section ingestion.

(** An embedding, as the embedding service returns it. *)
Variable vector : Type.

(** The payload [ingest_pdf] stores with page [i]. *)
Definition page_payload (pdf_path : string) (i : nat) (data_url : string)
    : gmap string Py.value :=
  <["source" := Py.PyStr pdf_path]>
    (<["page" := Py.PyInt (Z.of_nat i)]>
       (<["page_content" := Py.PyStr data_url]> ∅)).

(** The loop of [ingest_pdf] over [enumerate(zip(vectors, data_urls))],
    entered with [i] and the points built so far. *)
Fixpoint points_from (pdf_path : string) (i : nat)
    (vectors : list vector) (data_urls : list string)
    (points : list (PointStruct.t vector)) : list (PointStruct.t vector) :=
  match vectors, data_urls with
  | v :: vectors', data_url :: data_urls' =>
      points_from pdf_path (S i) vectors' data_urls'
        (points ++ [PointStruct.mk i v (page_payload pdf_path i data_url)])
  | _, _ => points
  end.

(** The points [ingest_pdf] upserts. *)
Definition build_points (pdf_path : string)
    (vectors : list vector) (data_urls : list string) : list (PointStruct.t vector) :=
  points_from pdf_path 0 vectors data_urls [].

(** The hit the store returns for a stored point. *)
Definition hit (score : string) (p : PointStruct.t vector) : ScoredPoint.t :=
  ScoredPoint.mk (PointStruct.payload p) score.

(** [class QdrantRetriever]: the Qdrant client's [search] and the
    embedding client's [embed_query] are the object's two services. *)
Record QdrantRetriever : Type := {
  client_search : string -> vector -> nat -> Py.result (list ScoredPoint.t);
  embed_query : string -> Py.result vector;
  collection : string;
  k : nat
}.

(** [d[key]]. *)
Definition subscript (d : gmap string Py.value) (key : string) : Py.result Py.value :=
  match d !! key with
  | Some v => Py.Ok v
  | None => Py.Raise (Py.KeyError key)
  end.

(** [Document(page_content=...)] accepts a string only. *)
Definition as_page_content (v : Py.value) : Py.result string :=
  match v with
  | Py.PyStr s => Py.Ok s
  | _ => Py.Raise (Py.ServiceError "ValidationError: page_content must be a string")
  end.

(** The body of the loop of [invoke]: the [Document] built from one
    hit. *)
Definition to_document (result : ScoredPoint.t) : Py.result Document.t :=
  content ← subscript (ScoredPoint.payload result) "page_content";
  page ← subscript (ScoredPoint.payload result) "page";
  let source := Py.dict_get_default (ScoredPoint.payload result) "source" (Py.PyStr "") in
  page_content ← as_page_content content;
  Py.Ok (Document.mk page_content
           (<["score" := Py.PyOther (ScoredPoint.score result)]>
              (<["source" := source]> (<["page" := page]> ∅)))).

(** The loop of [invoke] over [results], with the documents built so
    far. *)
Fixpoint to_documents (results : list ScoredPoint.t) (docs : list Document.t)
    : Py.result (list Document.t) :=
  match results with
  | [] => Py.Ok docs
  | result :: rest =>
      doc ← to_document result;
      to_documents rest (docs ++ [doc])
  end.

(** [QdrantRetriever.invoke(query)]. *)
Definition invoke (self : QdrantRetriever) (query : string) : Py.result (list Document.t) :=
  query_vector ← embed_query self query;
  results ← client_search self (collection self) query_vector (k self);
  to_documents results [].

(** [get_retriever(collection, host, port)]: a retriever with the
    default [k=1].  [connect host port] is the search of the client built
    for that address; [embed] is the embedding client's query method. *)
Definition get_retriever
    (connect : string -> Z -> string -> vector -> nat -> Py.result (list ScoredPoint.t))
    (embed : string -> Py.result vector)
    (collection : string) (host : string) (port : Z) : QdrantRetriever :=
  {| client_search := connect host port;
     embed_query := embed;
     collection := collection;
     k := 1 |}.

End ingestion.
End ingestion.

(** ** agentic_rag_service.py: the service around the graph *)

Module Exchange.
(** One entry of a session's [conversation_history]. *)
Record t : Type := mk {
  question : string;
  answer : string;
  documents_used : nat;
  web_search_used : bool
}.
End Exchange.

Module Session.
(** A session's dict; a field is [None] when its key is absent. *)
Record t : Type := mk {
  pdf_processed : option bool;
  pdf_path : option string;
  conversation_history : option (list Exchange.t)
}.
End Session.

Module AgenticRAGService.

(** The attributes of the service that its methods read or write. *)
Record t : Type := mk {
  is_initialized : bool;
  current_pdf_path : option string;
  dependencies_available : bool;
  session_states : gmap string Session.t
}.

(** What a method call leaves behind: a returned value, or the
    [ValueError] that [query] raises itself. *)
Inductive outcome (A : Type) : Type :=
| Returned (a : A)
| ValueError (msg : string).
Arguments Returned {A} a.
Arguments ValueError {A} msg.

(** [os.getenv(var)] is truthy: the variable is set and not empty. *)
Definition env_set (environ : gmap string string) (var : string) : bool :=
  match environ !! var with
  | Some v => negb (String.eqb v "")
  | None => false
  end.

(** [_check_dependencies]; [agentic_rag_available] tells whether the
    import of the graph succeeded. *)
Definition check_dependencies (environ : gmap string string)
    (agentic_rag_available : bool) : bool :=
  let required_env_vars := ["COHERE_API_KEY"; "GOOGLE_API_KEY"; "TAVILY_API_KEY"] in
  let missing_vars := List.filter (fun var => negb (env_set environ var)) required_env_vars in
  match missing_vars with
  | _ :: _ => false
  | [] => true && agentic_rag_available
  end.

(** [__init__]. *)
Definition init (environ : gmap string string) (agentic_rag_available : bool) : t :=
  mk false None (check_dependencies environ agentic_rag_available) ∅.

(** [str(e)]. *)
Definition exn_str (e : Py.exn) : string :=
  match e with
  | Py.AttributeError msg => msg
  | Py.KeyError key => "'" +:+ key +:+ "'"
  | Py.ServiceError msg => msg
  end.

(** [_format_response]. *)
Definition format_response (question answer : string)
    (documents_used : nat) (web_search_used : bool) : string :=
  let response := "📄 **Question:** " +:+ question +:+ "

🤖 **Answer:** " +:+ answer in
  let processing_info := [] in
  let processing_info :=
    if (0 <? documents_used)%nat
    then processing_info ++ ["📚 Analyzed " +:+ pretty documents_used +:+ " document sections"]
    else processing_info in
  let processing_info :=
    if web_search_used
    then processing_info ++ ["🌐 Enhanced with web search"]
    else processing_info in
  let response :=
    match processing_info with
    | _ :: _ => response +:+ "

**Processing:** " +:+ Py.join " • " processing_info
    | [] => response
    end in
  response +:+ "

💬 *Feel free to ask follow-up questions about the document!*".

(** [_generate_placeholder_response]. *)
Definition generate_placeholder_response (question : string) (session_state : Session.t)
    : string :=
  "📄 **Question:** " +:+ question +:+ "

🤖 **Response:** I can see that you've uploaded a PDF successfully! However, the AI processing is currently running in placeholder mode. 

**What's working:**
✅ PDF upload and processing infrastructure
✅ Session management for follow-up questions
✅ API endpoints and containerization
✅ Graph-based workflow architecture

**To enable full AI functionality:**
1. Set COHERE_API_KEY in your .env file (for multimodal embeddings)
2. Set GOOGLE_API_KEY in your .env file (for Gemini LLM)
3. Set TAVILY_API_KEY in your .env file (for web search)

**Current status:** All infrastructure is ready - sophisticated agentic RAG with document grading, web search routing, and hallucination detection will activate once API keys are configured.

💬 *You can continue asking questions - the system will automatically upgrade to full AI processing when configured!*".

(** [_generate_error_response]. *)
Definition generate_error_response (question error : string) : string :=
  "📄 **Question:** " +:+ question +:+ "

⚠️ **Error:** " +:+ error +:+ "

The agentic RAG system encountered an issue. This might be due to:
- API rate limits or connectivity issues
- Document processing complexity
- Temporary service unavailability

💡 **Tip:** Try rephrasing your question or wait a moment before trying again.".

Section methods.

(** [agentic_rag_graph.invoke], or [None] when the graph could not be
    imported. *)
Variable agentic_rag_graph : option (GraphState.t -> Py.result GraphState.t).

(** [os.path.exists] and the ingestion of [agentic_rag.ingest_pdf] into
    the service's store. *)
Variable path_exists : string -> bool.
Variable ingest : string -> Py.result unit.

Definition set_session (self : t) (session_id : string) (session : Session.t) : t :=
  mk (is_initialized self) (current_pdf_path self) (dependencies_available self)
     (<[session_id := session]> (session_states self)).

(** The session dict stored when no history is set up. *)
Definition placeholder_session (pdf_path : string) : Session.t :=
  Session.mk (Some true) (Some pdf_path) None.

(** [ingest_pdf(pdf_path, session_id)]: the service afterwards and the
    returned flag. *)
Definition ingest_pdf (self : t) (pdf_path session_id : string) : t * bool :=
  let fallback :=
    (mk true (current_pdf_path self) (dependencies_available self)
        (<[session_id := placeholder_session pdf_path]> (session_states self)),
     true) in
  if negb (dependencies_available self) then fallback
  else if negb (path_exists pdf_path) then (self, false)
  else
    match ingest pdf_path with
    | Py.Ok _ =>
        (mk true (Some pdf_path) (dependencies_available self)
            (<[session_id := Session.mk (Some true) (Some pdf_path) (Some [])]>
               (session_states self)),
         true)
    | Py.Raise _ => fallback
    end.

(** The body of the [try] of [query], once the session dict is at hand:
    the session to store, if one is stored, and the response. *)
Definition query_body (self : t) (question : string) (session_state : Session.t)
    : Py.result (option Session.t * string) :=
  match agentic_rag_graph with
  | Some invoke =>
      if negb (dependencies_available self)
      then Py.Ok (None, generate_placeholder_response question session_state)
      else
        let graph_state := GraphState.mk question "" false [] in
        result ← invoke graph_state;
        let answer := GraphState.generation result in
        let documents_used := length (GraphState.documents result) in
        let web_search_used := GraphState.web_search result in
        let response := format_response question answer documents_used web_search_used in
        history ←
          match Session.conversation_history session_state with
          | Some history => Py.Ok history
          | None => Py.Raise (Py.KeyError "conversation_history")
          end;
        let session_state :=
          Session.mk (Session.pdf_processed session_state) (Session.pdf_path session_state)
            (Some (history ++ [Exchange.mk question answer documents_used web_search_used])) in
        Py.Ok (Some session_state, response)
  | None => Py.Ok (None, generate_placeholder_response question session_state)
  end.

(** [query(question, session_id)]. *)
Definition query (self : t) (question session_id : string) : t * outcome string :=
  if negb (is_initialized self)
  then (self, ValueError "PDF not uploaded yet. Please upload a PDF first.")
  else
    let session_state :=
      default (Session.mk None None (Some [])) (session_states self !! session_id) in
    match query_body self question session_state with
    | Py.Ok (Some session_state, response) =>
        (set_session self session_id session_state, Returned response)
    | Py.Ok (None, response) => (self, Returned response)
    | Py.Raise e => (self, Returned (generate_error_response question (exn_str e)))
    end.

(** [get_conversation_history(session_id)]. *)
Definition get_conversation_history (self : t) (session_id : string) : list Exchange.t :=
  match session_states self !! session_id with
  | Some session_state => default [] (Session.conversation_history session_state)
  | None => []
  end.

(** [clear_session(session_id)]. *)
Definition clear_session (self : t) (session_id : string) : t * bool :=
  match session_states self !! session_id with
  | Some session_state =>
      (set_session self session_id
         (Session.mk (Session.pdf_processed session_state) (Session.pdf_path session_state)
                     (Some [])),
       true)
  | None => (self, false)
  end.

(** [is_ready()]. *)
Definition is_ready (self : t) : bool := is_initialized self.

End methods.
End AgenticRAGService.

(** ** Following a turn through the workflow *)

Module turn.

(** Where the gate's label leads, by the dict of the conditional edges
    of [GENERATE]. *)
Definition after_generate (GENERATE WEBSEARCH label : string) : string :=
  if String.eqb label "not supported" then GENERATE
  else if String.eqb label "useful" then StateGraph.END
       else WEBSEARCH.

(** Where a turn stands: it reached [END]; it is about to run a node
    (the steps allowed were used up); or its last step scheduled no node
    or several, which is not followed further. *)
Inductive status : Type :=
| Finished (s : GraphState.t)
| Running (n : string) (s : GraphState.t)
| Branching (next : list string) (s : GraphState.t).

(** The turn from node [n] in state [s], for at most [fuel] steps. *)
Fixpoint run (g : StateGraph.t) (fuel : nat) (n : string) (s : GraphState.t)
    : Py.result status :=
  if String.eqb n StateGraph.END then Py.Ok (Finished s)
  else
    match fuel with
    | O => Py.Ok (Running n s)
    | S fuel =>
        r ← StateGraph.step g n s;
        match snd r with
        | [m] => run g fuel m (fst r)
        | next => Py.Ok (Branching next (fst r))
        end
    end.

(** A whole turn: the entry decision, then the steps. *)
Definition invoke (g : StateGraph.t) (fuel : nat) (s : GraphState.t) : Py.result status :=
  n ← StateGraph.entry g s;
  run g fuel n s.

End turn.

(** ** What the chains' verdicts amount to *)

Module verdict.

(** Whether the relevance chain, as built over [llm], lets a document
    through: always, unless the model answered and its answer,
    lower-cased and stripped, does not contain yes. *)
Definition relevant (llm : option chat_model) (question : string)
    (document : ImageDocument.t) : bool :=
  match llm with
  | None => true
  | Some llm =>
      match llm [{| content := retrieval_grader_py.parts question document |}] with
      | Py.Ok response => Py.contains "yes" (Py.strip (Py.lower response))
      | Py.Raise _ => true
      end
  end.

End verdict.

(** ** More sample data *)

Module fixture.

(** A chat model that answers no. *)
Definition says_no : chat_model := fun messages => Py.Ok "No.".

(** A chat model that finds only the first sample page relevant. *)
Definition picky : chat_model :=
  fun messages =>
    match messages with
    | [{| content := image_url "data:image/png;base64,AAAA" :: _ |}] => Py.Ok "YES"
    | _ => Py.Ok "no"
    end.

(** A grounding classifier that never finds the answer grounded. *)
Definition ungrounded (documents : list ImageDocument.t) (generation : string)
    : Py.result GradeHallucinations.t :=
  Py.Ok (GradeHallucinations.mk false).

(** An answer classifier that never finds the question addressed. *)
Definition off_topic (question generation : string) : Py.result GradeAnswer.t :=
  Py.Ok (GradeAnswer.mk false).

(** A router chain that sends every question to web search. *)
Definition to_websearch : structured_model RouteQuery.t :=
  fun messages => Py.Ok (RouteQuery.mk RouteQuery.websearch).

(** The workflow over the sample services, with a given grounding
    classifier, answer classifier and search tool. *)
Definition workflow
    (hallucination_grader : list ImageDocument.t -> string -> Py.result GradeHallucinations.t)
    (answer_grader : option (string -> string -> Py.result GradeAnswer.t))
    (question_router : router_py.router)
    (web_search_tool : string -> Py.result TavilyResponse.t) : StateGraph.t :=
  graph.workflow sample.RETRIEVE sample.GRADE_DOCUMENTS sample.GENERATE sample.WEBSEARCH
    hallucination_grader answer_grader question_router
    (nodes.retrieve sample.retriever)
    (nodes.grade_documents sample.grader)
    (nodes.generate (generation_py.generation_chain (Some sample.says_yes)))
    (nodes.web_search web_search_tool).

(** The workflow as it is when no chat model could be built. *)
Definition degraded_workflow : StateGraph.t :=
  graph.workflow sample.RETRIEVE sample.GRADE_DOCUMENTS sample.GENERATE sample.WEBSEARCH
    (hallucination_grader_py.hallucination_grader None)
    (answer_grader_py.answer_grader None)
    (router_py.question_router None)
    (nodes.retrieve sample.retriever)
    (nodes.grade_documents (retrieval_grader_py.retrieval_grader None))
    (nodes.generate (generation_py.generation_chain None))
    (nodes.web_search sample.search).

(** A store holding two pages of one PDF, searched without regard to
    the query; the first honours the limit, the second lost a payload
    key. *)
Definition stored : list (PointStruct.t (list Z)) :=
  ingestion.build_points (list Z) "cv.pdf" [[1; 2]; [3; 4]]%Z
    ["data:image/png;base64,AAAA"; "data:image/png;base64,BBBB"].

Definition connect (host : string) (port : Z) (collection : string)
    (query_vector : list Z) (limit : nat) : Py.result (list ScoredPoint.t) :=
  Py.Ok (take limit (map (ingestion.hit (list Z) "0.71") stored)).

Definition connect_broken (host : string) (port : Z) (collection : string)
    (query_vector : list Z) (limit : nat) : Py.result (list ScoredPoint.t) :=
  Py.Ok [ScoredPoint.mk (<["page_content" := Py.PyStr "data:image/png;base64,AAAA"]> ∅)
           "0.71"].

Definition embed (query : string) : Py.result (list Z) := Py.Ok [5; 6]%Z.

(** A compiled graph that answers from one page, one whose run fails,
    and the services of an upload. *)
Definition answering (s : GraphState.t) : Py.result GraphState.t :=
  Py.Ok (GraphState.mk (GraphState.question s) "Cairo University." true
           [sample.page0; sample.snippet]).

Definition crashing (s : GraphState.t) : Py.result GraphState.t :=
  Py.Raise (Py.ServiceError "Recursion limit of 25 reached").

Definition on_disk (path : string) : bool := String.eqb path "storage/uploads/cv.pdf".

Definition ingest_ok (path : string) : Py.result unit := Py.Ok tt.

Definition ingest_fails (path : string) : Py.result unit :=
  Py.Raise (Py.ServiceError "Connection refused").

Definition full_environ : gmap string string :=
  <["TAVILY_API_KEY" := "tvly-1"]>
    (<["GOOGLE_API_KEY" := "g-1"]> (<["COHERE_API_KEY" := "c-1"]> ∅)).

End fixture.

(** * Properties *)

(** ** The error monad *)

Lemma bind_Ok {A B : Type} (a : A) (k : A -> Py.result B) :
  (x ← Py.Ok a; k x) = k a.
Proof. reflexivity. Qed.

Lemma bind_Raise {A B : Type} (e : Py.exn) (k : A -> Py.result B) :
  (x ← Py.Raise e; k x) = Py.Raise e.
Proof. reflexivity. Qed.

(** ** Strings *)

Lemma prefix_append (s t : string) : String.prefix s (s +:+ t) = true.
Proof.
  induction s as [|c s IH]; simpl.
  - by destruct t.
  - destruct (ascii_dec c c); [exact IH | done].
Qed.

Lemma contains_here (needle rest : string) :
  Py.contains needle (needle +:+ rest) = true.
Proof.
  assert (Hunfold : forall h, Py.contains needle h
            = String.prefix needle h
              || match h with
                 | EmptyString => false
                 | String _ r => Py.contains needle r
                 end) by (intros h; destruct h; reflexivity).
  rewrite Hunfold, prefix_append. done.
Qed.

Lemma contains_append (needle before rest : string) :
  Py.contains needle rest = true ->
  Py.contains needle (before +:+ rest) = true.
Proof.
  intros H. induction before as [|c b IH]; simpl; [exact H |].
  rewrite IH. apply orb_true_r.
Qed.

(** ** Loops that append *)

Lemma fold_left_append_map {A B : Type} (f : A -> B) (l : list A) (acc : list B) :
  fold_left (fun out x => out ++ [f x]) l acc = acc ++ map f l.
Proof.
  revert acc. induction l as [|x l IH]; intros acc; simpl.
  - by rewrite app_nil_r.
  - rewrite IH. by rewrite <- app_assoc.
Qed.

Lemma generation_loop (docs : list ImageDocument.t) (acc : list part) :
  fold_left generation_py.add_image docs acc
  = acc ++ map image_part (List.filter is_image docs).
Proof.
  revert acc. induction docs as [|d docs IH]; intros acc; simpl.
  - by rewrite app_nil_r.
  - rewrite IH. unfold generation_py.add_image.
    destruct (is_image d); simpl; [by rewrite <- app_assoc | done].
Qed.

Lemma hallucination_loop (docs : list ImageDocument.t) (acc : list part) (n : nat) :
  fst (fold_left hallucination_grader_py.add_image docs (acc, n))
  = acc ++ map image_part (take (3 - n) (List.filter is_image docs)).
Proof.
  revert acc n. induction docs as [|d docs IH]; intros acc n; simpl.
  - by rewrite take_nil, app_nil_r.
  - destruct (is_image d) eqn:Hd; simpl.
    + destruct (n <? 3)%nat eqn:Hn; rewrite IH.
      * apply Nat.ltb_lt in Hn.
        replace (3 - n)%nat with (S (3 - (n + 1)))%nat by lia.
        simpl. by rewrite <- app_assoc.
      * apply Nat.ltb_ge in Hn.
        replace (3 - n)%nat with 0%nat by lia. done.
    + apply IH.
Qed.

(** ** Grading documents *)

Section grade_documents_facts.
Variable retrieval_grader : string -> ImageDocument.t -> Py.result GradeDocuments.t.
Variable question : string.

Local Abbreviation grade_one := (nodes.grade_one retrieval_grader question).
Local Abbreviation grade_loop := (nodes.grade_loop retrieval_grader question).

(** A document is either kept, leaving the flag alone, or dropped,
    raising the flag. *)
Lemma grade_one_cases (doc : ImageDocument.t) :
  grade_one ([], false) doc = ([doc], false) \/ grade_one ([], false) doc = ([], true).
Proof.
  unfold nodes.grade_one.
  destruct (retrieval_grader question doc) as [score|e]; simpl; [|by left].
  destruct (String.eqb _ _); simpl; [by left | by right].
Qed.

(** What a turn of the loop does to its state, from what it does to
    the initial one. *)
Lemma grade_one_acc (filtered_docs : list ImageDocument.t) (web_search : bool)
    (doc : ImageDocument.t) :
  grade_one (filtered_docs, web_search) doc
  = (filtered_docs ++ fst (grade_one ([], false) doc),
     web_search || snd (grade_one ([], false) doc)).
Proof.
  unfold nodes.grade_one.
  destruct (retrieval_grader question doc) as [score|e]; simpl.
  - destruct (String.eqb _ _); simpl.
    + by rewrite orb_false_r.
    + by rewrite app_nil_r, orb_true_r.
  - by rewrite orb_false_r.
Qed.

Lemma grade_fold_acc (docs filtered_docs : list ImageDocument.t) (web_search : bool) :
  fold_left grade_one docs (filtered_docs, web_search)
  = (filtered_docs ++ fst (grade_loop docs), web_search || snd (grade_loop docs)).
Proof.
  unfold nodes.grade_loop.
  revert filtered_docs web_search.
  induction docs as [|d docs IH]; intros f w; cbn [fold_left].
  - cbn. by rewrite app_nil_r, orb_false_r.
  - rewrite grade_one_acc.
    destruct (grade_one ([], false) d) as [kept flag]. cbn [fst snd].
    rewrite (IH (f ++ kept) (w || flag)), (IH kept flag). cbn [fst snd].
    by rewrite app_assoc, orb_assoc.
Qed.

Lemma grade_loop_cons (doc : ImageDocument.t) (docs : list ImageDocument.t) :
  grade_loop (doc :: docs)
  = (fst (grade_one ([], false) doc) ++ fst (grade_loop docs),
     snd (grade_one ([], false) doc) || snd (grade_loop docs)).
Proof.
  unfold nodes.grade_loop at 1. cbn [fold_left].
  destruct (grade_one ([], false) doc) as [kept flag]. cbn [fst snd].
  apply grade_fold_acc.
Qed.

Lemma grade_loop_app (pre post : list ImageDocument.t) :
  grade_loop (pre ++ post)
  = (fst (grade_loop pre) ++ fst (grade_loop post),
     snd (grade_loop pre) || snd (grade_loop post)).
Proof.
  unfold nodes.grade_loop at 1. rewrite fold_left_app.
  fold (grade_loop pre).
  destruct (grade_loop pre) as [kept flag]. cbn [fst snd].
  apply grade_fold_acc.
Qed.

Lemma grade_loop_sublist (docs : list ImageDocument.t) :
  sublist (fst (grade_loop docs)) docs.
Proof.
  induction docs as [|d docs IH]; [constructor |].
  rewrite grade_loop_cons. cbn [fst].
  destruct (grade_one_cases d) as [-> | ->]; cbn [fst app].
  - by apply sublist_skip.
  - by apply sublist_cons.
Qed.

Lemma grade_documents_unfold (state : GraphState.t) :
  GraphState.question state = question ->
  nodes.grade_documents retrieval_grader state
  = Py.Ok (Update.mk (Some (fst (grade_loop (GraphState.documents state))))
                     (Some question)
                     (Some (snd (grade_loop (GraphState.documents state))))
                     None).
Proof.
  intros <-. unfold nodes.grade_documents.
  by destruct (nodes.grade_loop _ _ _).
Qed.

End grade_documents_facts.

Example grade_loop_sample :
  nodes.grade_loop sample.grader "q" [sample.page0; sample.page1; sample.page2]
  = ([sample.page0; sample.page2], true).
Proof. reflexivity. Qed.

(** C2. For every question and every list of documents, grade_documents
    returns a filtered list that is a subsequence of its input: it is no
    longer than the input, keeps the input order, and holds no document
    that the input lacks.  The web_search flag it returns is true as
    soon as one document of the batch is graded irrelevant (the grader
    answers something other than yes for it), whatever the grades of the
    others. *)
Theorem grade_documents_subsequence_and_flag
    (retrieval_grader : string -> ImageDocument.t -> Py.result GradeDocuments.t)
    (state : GraphState.t) :
  exists (filtered_docs : list ImageDocument.t) (web_search : bool),
    nodes.grade_documents retrieval_grader state
    = Py.Ok (Update.mk (Some filtered_docs) (Some (GraphState.question state))
                       (Some web_search) None)
    /\ sublist filtered_docs (GraphState.documents state)
    /\ length filtered_docs <= length (GraphState.documents state)
    /\ (forall doc, doc ∈ filtered_docs -> doc ∈ GraphState.documents state)
    /\ (forall doc score,
          doc ∈ GraphState.documents state ->
          retrieval_grader (GraphState.question state) doc = Py.Ok score ->
          String.eqb (Py.lower (GradeDocuments.binary_score score)) "yes" = false ->
          web_search = true).
Proof.
  set (q := GraphState.question state).
  set (docs := GraphState.documents state).
  exists (fst (nodes.grade_loop retrieval_grader q docs)),
         (snd (nodes.grade_loop retrieval_grader q docs)).
  pose proof (grade_loop_sublist retrieval_grader q docs) as Hsub.
  split; [by apply grade_documents_unfold |].
  split; [exact Hsub |].
  split; [by apply sublist_length |].
  split; [intros doc Hin; eapply elem_of_submseteq; [exact Hin | by apply sublist_submseteq] |].
  intros doc score Hin Hscore Hno.
  apply list_elem_of_split in Hin as (pre & post & Hdocs).
  rewrite Hdocs, grade_loop_app, grade_loop_cons. cbn [fst snd].
  assert (Hone : nodes.grade_one retrieval_grader q ([], false) doc = ([], true)).
  { unfold nodes.grade_one. rewrite Hscore. simpl. by rewrite Hno. }
  rewrite Hone. cbn [snd]. apply orb_true_r.
Qed.

(** C5. If grading one document of the batch raises, grade_documents
    keeps that document at its place in the filtered output, does not
    abort, and grades the documents before and after it as it would have
    without the failure; the failure alone does not set web_search. *)
Theorem grade_documents_fail_open
    (retrieval_grader : string -> ImageDocument.t -> Py.result GradeDocuments.t)
    (state : GraphState.t) (pre post : list ImageDocument.t)
    (doc : ImageDocument.t) (e : Py.exn) :
  GraphState.documents state = pre ++ doc :: post ->
  retrieval_grader (GraphState.question state) doc = Py.Raise e ->
  nodes.grade_documents retrieval_grader state
  = Py.Ok (Update.mk
             (Some (fst (nodes.grade_loop retrieval_grader (GraphState.question state) pre)
                    ++ doc
                    :: fst (nodes.grade_loop retrieval_grader (GraphState.question state) post)))
             (Some (GraphState.question state))
             (Some (snd (nodes.grade_loop retrieval_grader (GraphState.question state) pre)
                    || snd (nodes.grade_loop retrieval_grader (GraphState.question state) post)))
             None).
Proof.
  intros Hdocs Hraise.
  rewrite (grade_documents_unfold retrieval_grader (GraphState.question state)) by done.
  rewrite Hdocs, grade_loop_app, grade_loop_cons. cbn [fst snd].
  assert (Hone : nodes.grade_one retrieval_grader (GraphState.question state) ([], false) doc
                 = ([doc], false)).
  { unfold nodes.grade_one. by rewrite Hraise. }
  by rewrite Hone.
Qed.

Lemma grade_documents_fail_open_witness :
  GraphState.documents (sample.state [sample.page0; sample.page2; sample.page1])
  = [sample.page0] ++ sample.page2 :: [sample.page1]
  /\ sample.grader "What is his education?" sample.page2
     = Py.Raise (Py.ServiceError "429 quota exceeded")
  /\ nodes.grade_documents sample.grader
       (sample.state [sample.page0; sample.page2; sample.page1])
     = Py.Ok (Update.mk (Some [sample.page0; sample.page2])
                        (Some "What is his education?") (Some true) None).
Proof.
  split; [reflexivity |]. split; [reflexivity |].
  exact (grade_documents_fail_open sample.grader
           (sample.state [sample.page0; sample.page2; sample.page1])
           [sample.page0] [sample.page1] sample.page2
           (Py.ServiceError "429 quota exceeded") eq_refl eq_refl).
Defined.

(** ** Retrieval *)

Lemma to_image_doc_page_number (doc : Document.t) :
  ImageDocument.page_number (nodes.to_image_doc doc)
  = match Document.metadata doc !! "page" with
    | Some page => page
    | None => Py.PyInt 0
    end.
Proof.
  unfold nodes.to_image_doc, Py.dict_get_default. simpl.
  by destruct (Document.metadata doc !! "page").
Qed.

Example retrieve_sample :
  nodes.retrieve sample.retriever (sample.state [])
  = Py.Ok (Update.mk
             (Some [ImageDocument.mk "data:image/png;base64,AAAA" (Py.PyInt 7)
                      (<["page" := Py.PyInt 7]> ∅);
                    ImageDocument.mk "data:image/png;base64,BBBB" (Py.PyInt 0)
                      (<["source" := Py.PyStr "cv.pdf"]> ∅)])
             (Some "What is his education?") None None).
Proof. reflexivity. Qed.

(** C9. When the document store answers a question with a list of
    documents, retrieve returns one ImageDocument per returned document,
    in the same order and with nothing filtered, dropped or re-ranked:
    the output has the adapter's length and its i-th entry is the image
    of the adapter's i-th document, with the same content and metadata
    and with page_number read from the metadata key page, 0 when the key
    is absent. *)
Theorem retrieve_maps_every_document
    (retriever : string -> Py.result (list Document.t))
    (state : GraphState.t) (documents : list Document.t) :
  retriever (GraphState.question state) = Py.Ok documents ->
  exists image_docs : list ImageDocument.t,
    nodes.retrieve retriever state
    = Py.Ok (Update.mk (Some image_docs) (Some (GraphState.question state)) None None)
    /\ length image_docs = length documents
    /\ (forall i : nat, image_docs !! i = nodes.to_image_doc <$> documents !! i)
    /\ (forall (i : nat) (doc : Document.t),
          documents !! i = Some doc ->
          exists image_doc,
            image_docs !! i = Some image_doc
            /\ ImageDocument.page_content image_doc = Document.page_content doc
            /\ ImageDocument.metadata image_doc = Document.metadata doc
            /\ ImageDocument.page_number image_doc
               = match Document.metadata doc !! "page" with
                 | Some page => page
                 | None => Py.PyInt 0
                 end).
Proof.
  intros Hret.
  exists (map nodes.to_image_doc documents).
  split.
  { unfold nodes.retrieve. rewrite Hret, bind_Ok.
    by rewrite fold_left_append_map. }
  split; [apply length_map |].
  split; [intros i; apply list_lookup_fmap |].
  intros i doc Hi. exists (nodes.to_image_doc doc).
  split; [by rewrite (list_lookup_fmap nodes.to_image_doc), Hi |].
  split; [done |]. split; [done |].
  apply to_image_doc_page_number.
Qed.

Lemma retrieve_maps_every_document_witness :
  sample.retriever (GraphState.question (sample.state [sample.page3]))
  = Py.Ok [Document.mk "data:image/png;base64,AAAA" (<["page" := Py.PyInt 7]> ∅);
           Document.mk "data:image/png;base64,BBBB" (<["source" := Py.PyStr "cv.pdf"]> ∅)]
  /\ exists image_docs : list ImageDocument.t,
       nodes.retrieve sample.retriever (sample.state [sample.page3])
       = Py.Ok (Update.mk (Some image_docs) (Some "What is his education?") None None)
       /\ length image_docs = 2%nat.
Proof.
  split; [reflexivity |].
  destruct (retrieve_maps_every_document sample.retriever (sample.state [sample.page3])
              _ eq_refl) as (image_docs & Hrun & Hlen & _).
  exists image_docs. split; [exact Hrun | exact Hlen].
Defined.

(** ** Web search *)

Lemma join_concat (sep : string) (xs : list string) :
  Py.join sep xs = String.concat sep xs.
Proof.
  induction xs as [|x [|y xs] IH]; [done | done |].
  change (Py.join sep (x :: y :: xs)) with (x +:+ sep +:+ Py.join sep (y :: xs)).
  by rewrite IH.
Qed.

Lemma web_doc_is_text (content : string) : is_image (nodes.web_doc content) = false.
Proof. reflexivity. Qed.

Lemma web_search_unfold
    (web_search_tool : string -> Py.result TavilyResponse.t)
    (state : GraphState.t) (tavily_results : list TavilyResult.t) :
  web_search_tool (GraphState.question state)
  = Py.Ok (TavilyResponse.mk (Some tavily_results)) ->
  nodes.web_search web_search_tool state
  = Py.Ok (Update.mk
             (Some (GraphState.documents state
                    ++ [nodes.web_doc
                          (Py.join Py.newline (map TavilyResult.content tavily_results))]))
             (Some (GraphState.question state)) None None).
Proof.
  intros Hsearch. unfold nodes.web_search. rewrite Hsearch. simpl.
  by destruct (GraphState.documents state).
Qed.

Example web_search_sample :
  nodes.web_search sample.search (sample.state [sample.page0])
  = Py.Ok (Update.mk
             (Some [sample.page0;
                    ImageDocument.mk ("Cairo" +:+ Py.newline +:+ "Nile") (Py.PyInt (-1))
                      (<["source" := Py.PyStr "web_search"]>
                         (<["type" := Py.PyStr "text"]> ∅))])
             (Some "What is his education?") None None).
Proof. reflexivity. Qed.

(** C6. When the search tool answers with a list of results, the
    web_search node returns the prior documents, unchanged and in their
    order, followed by exactly one new document: its content is the
    results' snippets joined into one string (a line break between
    consecutive snippets), its page_number is -1 and its metadata is
    {source: web_search, type: text}. *)
Theorem web_search_appends_one_document
    (web_search_tool : string -> Py.result TavilyResponse.t)
    (state : GraphState.t) (tavily_results : list TavilyResult.t) :
  web_search_tool (GraphState.question state)
  = Py.Ok (TavilyResponse.mk (Some tavily_results)) ->
  exists web_doc : ImageDocument.t,
    nodes.web_search web_search_tool state
    = Py.Ok (Update.mk (Some (GraphState.documents state ++ [web_doc]))
                       (Some (GraphState.question state)) None None)
    /\ ImageDocument.page_content web_doc
       = String.concat Py.newline (map TavilyResult.content tavily_results)
    /\ ImageDocument.page_number web_doc = Py.PyInt (-1)
    /\ ImageDocument.metadata web_doc
       = <["source" := Py.PyStr "web_search"]> (<["type" := Py.PyStr "text"]> ∅)
    /\ is_image web_doc = false
    /\ length (GraphState.documents state ++ [web_doc])
       = S (length (GraphState.documents state))
    /\ (forall (i : nat) (doc : ImageDocument.t),
          GraphState.documents state !! i = Some doc ->
          (GraphState.documents state ++ [web_doc]) !! i = Some doc).
Proof.
  intros Hsearch.
  exists (nodes.web_doc (Py.join Py.newline (map TavilyResult.content tavily_results))).
  split; [by apply web_search_unfold |].
  split; [apply join_concat |].
  split; [done |].
  split; [by apply insert_insert_ne |].
  split; [done |].
  split; [rewrite length_app; simpl; lia |].
  intros i doc Hi. by apply lookup_app_l_Some.
Qed.

Lemma web_search_appends_one_document_witness :
  sample.search (GraphState.question (sample.state [sample.page0; sample.page1]))
  = Py.Ok (TavilyResponse.mk
             (Some [TavilyResult.mk "Egypt" "https://example.org/egypt" "Cairo";
                    TavilyResult.mk "Nile" "https://example.org/nile" "Nile"]))
  /\ exists web_doc : ImageDocument.t,
       nodes.web_search sample.search (sample.state [sample.page0; sample.page1])
       = Py.Ok (Update.mk (Some ([sample.page0; sample.page1] ++ [web_doc]))
                          (Some "What is his education?") None None)
       /\ ImageDocument.page_content web_doc = "Cairo" +:+ Py.newline +:+ "Nile"
       /\ ImageDocument.page_number web_doc = Py.PyInt (-1).
Proof.
  split; [reflexivity |].
  destruct (web_search_appends_one_document sample.search
              (sample.state [sample.page0; sample.page1]) _ eq_refl)
    as (web_doc & Hrun & Hcontent & Hpage & _).
  exists web_doc. split; [exact Hrun |]. split; [exact Hcontent | exact Hpage].
Defined.

(** ** The grounding request *)

Lemma hallucination_parts_spec (documents : list ImageDocument.t) (generation : string) :
  hallucination_grader_py.parts documents generation
  = map image_part (take 3 (List.filter is_image documents))
    ++ [text (hallucination_grader_py.prompt generation)].
Proof.
  unfold hallucination_grader_py.parts.
  by rewrite hallucination_loop.
Qed.

Lemma filter_is_image_idemp (documents : list ImageDocument.t) :
  List.filter is_image (List.filter is_image documents) = List.filter is_image documents.
Proof.
  induction documents as [|d documents IH]; [done |].
  simpl. destruct (is_image d) eqn:Hd; [|exact IH].
  simpl. by rewrite Hd, IH.
Qed.

Lemma filter_is_image_take (n : nat) (documents : list ImageDocument.t) :
  List.filter is_image (take n (List.filter is_image documents))
  = take n (List.filter is_image documents).
Proof.
  revert n. induction documents as [|d documents IH]; intros n.
  - by destruct n.
  - simpl. destruct (is_image d) eqn:Hd; [|apply IH].
    destruct n as [|n]; [done |].
    simpl. by rewrite Hd, IH.
Qed.

Example hallucination_parts_sample :
  hallucination_grader_py.parts
    [sample.page0; sample.snippet; sample.page1; sample.page2; sample.page3; sample.page4]
    "He studied in Cairo."
  = [image_url "data:image/png;base64,AAAA";
     image_url "data:image/png;base64,BBBB";
     image_url "data:image/png;base64,CCCC";
     text (hallucination_grader_py.prompt "He studied in Cairo.")].
Proof. reflexivity. Qed.

(** C10. The request the grounding classifier sends holds, before its
    prompt, one image part for each of the first three image-bearing
    documents of its input, in input order, and nothing else: an
    image-bearing document after the third is left out.  The verdict is
    therefore the one the classifier gives on those first three alone,
    and documents appended after them cannot change it. *)
Theorem hallucination_grader_first_three_images
    (llm : option chat_model) (documents : list ImageDocument.t) (generation : string) :
  hallucination_grader_py.parts documents generation
  = map image_part (take 3 (List.filter is_image documents))
    ++ [text (hallucination_grader_py.prompt generation)]
  /\ length (take 3 (List.filter is_image documents)) <= 3
  /\ hallucination_grader_py.hallucination_grader llm documents generation
     = hallucination_grader_py.hallucination_grader llm
         (take 3 (List.filter is_image documents)) generation
  /\ (forall later : list ImageDocument.t,
        3 <= length (List.filter is_image documents) ->
        hallucination_grader_py.hallucination_grader llm (documents ++ later) generation
        = hallucination_grader_py.hallucination_grader llm documents generation).
Proof.
  assert (Hsame : forall docs docs',
            take 3 (List.filter is_image docs) = take 3 (List.filter is_image docs') ->
            hallucination_grader_py.hallucination_grader llm docs generation
            = hallucination_grader_py.hallucination_grader llm docs' generation).
  { intros docs docs' Heq. unfold hallucination_grader_py.hallucination_grader.
    destruct llm as [llm|]; [|done].
    by rewrite !hallucination_parts_spec, Heq. }
  split; [apply hallucination_parts_spec |].
  split; [rewrite length_take; lia |].
  split.
  - apply Hsame. by rewrite filter_is_image_take, take_take.
  - intros later Hlen. apply Hsame.
    rewrite List.filter_app. by apply take_app_le.
Qed.

(** ** The generation request *)

Lemma generation_parts_spec (question : string) (documents : list ImageDocument.t) :
  generation_py.parts question documents
  = map image_part (List.filter is_image documents)
    ++ [text (generation_py.prompt_text question)].
Proof.
  unfold generation_py.parts. by rewrite generation_loop.
Qed.

Lemma prompt_text_states_question (question : string) :
  Py.contains question (generation_py.prompt_text question) = true.
Proof.
  unfold generation_py.prompt_text.
  apply contains_append, contains_here.
Qed.

Example generation_parts_sample :
  generation_py.parts "What is the capital of Egypt?"
    [sample.page0; sample.snippet; sample.page1]
  = [image_url "data:image/png;base64,AAAA";
     image_url "data:image/png;base64,BBBB";
     text (generation_py.prompt_text "What is the capital of Egypt?")].
Proof. reflexivity. Qed.

(** C8 does not hold as stated: the text of a text-bearing document
    does not reach the request.  With one page and one web-search
    snippet, the request is the page's image and the prompt; it is the
    very request built without the snippet, and the snippet's text
    occurs nowhere in the prompt. *)
Lemma generation_drops_web_text_counterexample :
  is_image sample.snippet = false
  /\ ImageDocument.page_content sample.snippet = "Cairo is the capital of Egypt."
  /\ generation_py.parts "What is the capital of Egypt?" [sample.page0; sample.snippet]
     = [image_url "data:image/png;base64,AAAA";
        text (generation_py.prompt_text "What is the capital of Egypt?")]
  /\ generation_py.parts "What is the capital of Egypt?" [sample.page0; sample.snippet]
     = generation_py.parts "What is the capital of Egypt?" [sample.page0]
  /\ Py.contains "Cairo is the capital of Egypt."
       (generation_py.prompt_text "What is the capital of Egypt?") = false.
Proof. repeat split; vm_compute; reflexivity. Qed.

(** C8, amended. When the model is available, the generation step sends
    one multimodal request: an image input for every image-bearing
    document, in input order, followed by one text part, the prompt,
    which states the question and comes last.  Text-bearing documents
    are left out of the request altogether: the request is the one built
    from the image-bearing documents alone. *)
Theorem generation_request_images_then_question
    (llm : chat_model) (question : string) (documents : list ImageDocument.t) :
  generation_py.generation_chain (Some llm) documents question
  = llm [{| content := generation_py.parts question documents |}]
  /\ generation_py.parts question documents
     = map image_part (List.filter is_image documents)
       ++ [text (generation_py.prompt_text question)]
  /\ (forall doc, doc ∈ documents -> is_image doc = true ->
        image_part doc ∈ generation_py.parts question documents)
  /\ generation_py.parts question documents
     = generation_py.parts question (List.filter is_image documents)
  /\ last (generation_py.parts question documents)
     = Some (text (generation_py.prompt_text question))
  /\ Py.contains question (generation_py.prompt_text question) = true.
Proof.
  split; [done |].
  split; [apply generation_parts_spec |].
  split.
  { intros doc Hin Himg. rewrite generation_parts_spec.
    apply elem_of_app. left. apply list_elem_of_fmap. exists doc. split; [done |].
    apply list_elem_of_In, filter_In. split; [by apply list_elem_of_In | done]. }
  split; [by rewrite !generation_parts_spec, filter_is_image_idemp |].
  split; [rewrite generation_parts_spec; apply last_snoc |].
  apply prompt_text_states_question.
Qed.

(** ** The composite gate *)

Section gate_facts.
Variable hallucination_grader :
  list ImageDocument.t -> string -> Py.result GradeHallucinations.t.
Variable answer_grader : option (string -> string -> Py.result GradeAnswer.t).

Local Abbreviation gate :=
  (graph.grade_generation_grounded_in_documents_and_question
     hallucination_grader answer_grader).

(** The gate's value is one of its three return statements or the
    handler's. *)
Lemma gate_cases (state : GraphState.t) :
  gate state = "not supported" \/ gate state = "useful" \/ gate state = "not useful".
Proof.
  unfold graph.grade_generation_grounded_in_documents_and_question,
    graph.answer_grader_invoke.
  destruct (List.filter is_image (GraphState.documents state)) as [|d imgs].
  - simpl. destruct answer_grader as [chain|]; simpl; [|by right; left].
    destruct (chain _ _) as [[[|]]|e]; simpl; auto.
  - destruct (hallucination_grader _ _) as [[[|]]|e]; simpl; auto.
    destruct answer_grader as [chain|]; simpl; [|by right; left].
    destruct (chain _ _) as [[[|]]|e]; simpl; auto.
Qed.

(** C3. For every state, the composite gate returns one of its three
    labels, not supported, useful or not useful.  It returns useful
    when a classifier fails inside it: when the grounding classifier
    raises, and, once the answer counts as grounded, when the answer
    classifier is missing or raises.  With no image-bearing document
    the grounding classifier is not consulted, the answer counts as
    grounded, and the gate does not return not supported. *)
Theorem gate_total_and_fail_open (state : GraphState.t) :
  let question := GraphState.question state in
  let generation := GraphState.generation state in
  let image_documents := List.filter is_image (GraphState.documents state) in
  let grounded :=
    image_documents = []
    \/ exists score, hallucination_grader image_documents generation = Py.Ok score
                     /\ GradeHallucinations.binary_score score = true in
  (gate state = "not supported" \/ gate state = "useful" \/ gate state = "not useful")
  /\ (forall e, image_documents <> [] ->
        hallucination_grader image_documents generation = Py.Raise e ->
        gate state = "useful")
  /\ (grounded -> answer_grader = None -> gate state = "useful")
  /\ (forall chain e, grounded -> answer_grader = Some chain ->
        chain question generation = Py.Raise e -> gate state = "useful")
  /\ (image_documents = [] -> gate state <> "not supported")
  /\ (image_documents = [] ->
      forall chain score, answer_grader = Some chain ->
        chain question generation = Py.Ok score ->
        gate state = if GradeAnswer.binary_score score then "useful" else "not useful").
Proof.
  intros question generation image_documents grounded.
  assert (Hgrounded : grounded ->
            gate state
            = Py.try_except
                (invoke ← graph.answer_grader_invoke answer_grader;
                 score ← invoke question generation;
                 if GradeAnswer.binary_score score
                 then Py.Ok "useful" else Py.Ok "not useful")
                (fun _ => "useful")).
  { unfold graph.grade_generation_grounded_in_documents_and_question.
    fold question generation image_documents.
    intros [-> | (score & Hscore & Htrue)]; [done |].
    destruct image_documents; rewrite ?Hscore; simpl; [done |].
    by rewrite Htrue. }
  split; [apply gate_cases |].
  split.
  { intros e Hne Hraise.
    unfold graph.grade_generation_grounded_in_documents_and_question.
    fold question generation image_documents.
    destruct image_documents; [done |]. by rewrite Hraise. }
  split.
  { intros Hg Hnone. rewrite (Hgrounded Hg).
    unfold graph.answer_grader_invoke. by rewrite Hnone. }
  split.
  { intros chain e Hg Hsome Hraise. rewrite (Hgrounded Hg).
    unfold graph.answer_grader_invoke. rewrite Hsome. simpl. by rewrite Hraise. }
  split.
  { intros Hempty. rewrite (Hgrounded (or_introl Hempty)).
    unfold graph.answer_grader_invoke.
    destruct answer_grader as [chain|]; simpl; [|done].
    destruct (chain _ _) as [[[|]]|e]; simpl; done. }
  intros Hempty chain score Hsome Hok. rewrite (Hgrounded (or_introl Hempty)).
  unfold graph.answer_grader_invoke. rewrite Hsome. simpl. rewrite Hok. simpl.
  by destruct (GradeAnswer.binary_score score).
Qed.

End gate_facts.

(** ** The workflow *)

(** Decide the comparisons between node names from their distinctness. *)
Ltac eqb_names :=
  repeat match goal with
    | |- context [String.eqb ?a ?a] => rewrite (String.eqb_refl a)
    | Hne : ?a <> ?b |- context [String.eqb ?a ?b] =>
        rewrite (proj2 (String.eqb_neq a b) Hne)
    | Hne : ?a <> ?b |- context [String.eqb ?b ?a] =>
        rewrite (proj2 (String.eqb_neq b a) (not_eq_sym Hne))
    end.

Section workflow_facts.
Variables RETRIEVE GRADE_DOCUMENTS GENERATE WEBSEARCH : string.
Variable hallucination_grader :
  list ImageDocument.t -> string -> Py.result GradeHallucinations.t.
Variable answer_grader : option (string -> string -> Py.result GradeAnswer.t).
Variable question_router : router_py.router.
Variables retrieve grade_documents generate web_search : node_action.

(** [add_node] rejects a name that is taken or reserved, so the module
    only loads when the four names differ from each other and from
    [END]. *)
Hypothesis names_distinct :
  NoDup [RETRIEVE; GRADE_DOCUMENTS; GENERATE; WEBSEARCH; StateGraph.END].

Local Abbreviation workflow :=
  (graph.workflow RETRIEVE GRADE_DOCUMENTS GENERATE WEBSEARCH
     hallucination_grader answer_grader question_router
     retrieve grade_documents generate web_search).
Local Abbreviation gate :=
  (graph.grade_generation_grounded_in_documents_and_question
     hallucination_grader answer_grader).

Lemma names_ne :
  RETRIEVE <> GRADE_DOCUMENTS /\ RETRIEVE <> GENERATE /\ RETRIEVE <> WEBSEARCH
  /\ GRADE_DOCUMENTS <> GENERATE /\ GRADE_DOCUMENTS <> WEBSEARCH
  /\ GENERATE <> WEBSEARCH
  /\ RETRIEVE <> StateGraph.END /\ GRADE_DOCUMENTS <> StateGraph.END
  /\ GENERATE <> StateGraph.END /\ WEBSEARCH <> StateGraph.END.
Proof.
  pose proof names_distinct as H.
  rewrite !NoDup_cons, !not_elem_of_cons in H.
  intuition.
Qed.

Lemma successors_RETRIEVE (s : GraphState.t) :
  StateGraph.successors workflow RETRIEVE s = Py.Ok [GRADE_DOCUMENTS].
Proof.
  destruct names_ne as (H1 & H2 & H3 & H4 & H5 & H6 & H7 & H8 & H9 & H10).
  unfold StateGraph.successors, StateGraph.starts_at. cbn.
  by eqb_names.
Qed.

Lemma successors_WEBSEARCH (s : GraphState.t) :
  StateGraph.successors workflow WEBSEARCH s = Py.Ok [GENERATE].
Proof.
  destruct names_ne as (H1 & H2 & H3 & H4 & H5 & H6 & H7 & H8 & H9 & H10).
  unfold StateGraph.successors, StateGraph.starts_at. cbn.
  by eqb_names.
Qed.

Lemma successors_GRADE_DOCUMENTS (s : GraphState.t) :
  StateGraph.successors workflow GRADE_DOCUMENTS s
  = Py.Ok [if GraphState.web_search s then WEBSEARCH else GENERATE].
Proof.
  destruct names_ne as (H1 & H2 & H3 & H4 & H5 & H6 & H7 & H8 & H9 & H10).
  unfold StateGraph.successors, StateGraph.starts_at. cbn.
  eqb_names. cbn. unfold StateGraph.resolve, graph.decide_to_generate. cbn.
  destruct (GraphState.web_search s).
  - rewrite lookup_insert_ne by done. by rewrite lookup_insert_eq.
  - by rewrite lookup_insert_eq.
Qed.

Lemma successors_GENERATE (s : GraphState.t) :
  StateGraph.successors workflow GENERATE s
  = Py.Ok [if String.eqb (gate s) "not supported" then GENERATE
           else if String.eqb (gate s) "useful" then StateGraph.END
                else WEBSEARCH].
Proof.
  destruct names_ne as (H1 & H2 & H3 & H4 & H5 & H6 & H7 & H8 & H9 & H10).
  unfold StateGraph.successors, StateGraph.starts_at. cbn.
  eqb_names. cbn. unfold StateGraph.resolve. cbn.
  destruct (gate_cases hallucination_grader answer_grader s) as [-> | [-> | ->]].
  - rewrite !lookup_insert_ne by done. by rewrite lookup_insert_eq.
  - rewrite lookup_insert_ne by done. by rewrite lookup_insert_eq.
  - by rewrite lookup_insert_eq.
Qed.

Lemma successors_END (s : GraphState.t) :
  StateGraph.successors workflow StateGraph.END s = Py.Ok [].
Proof.
  destruct names_ne as (H1 & H2 & H3 & H4 & H5 & H6 & H7 & H8 & H9 & H10).
  unfold StateGraph.successors, StateGraph.starts_at. cbn.
  by eqb_names.
Qed.

Lemma lookup_node_WEBSEARCH :
  StateGraph.lookup_node WEBSEARCH (StateGraph.node_table workflow) = Some web_search.
Proof.
  destruct names_ne as (H1 & H2 & H3 & H4 & H5 & H6 & H7 & H8 & H9 & H10).
  cbn. by eqb_names.
Qed.

(** C1. After a node has run, the workflow moves exactly as the
    transition table says, in every state: from RETRIEVE to
    GRADE_DOCUMENTS; from GRADE_DOCUMENTS to WEBSEARCH when web_search
    is set and to GENERATE otherwise; from WEBSEARCH to GENERATE; from
    GENERATE according to the gate, which has one of three values: not
    supported leads back to GENERATE, useful to END, not useful to
    WEBSEARCH.  Nothing follows END. *)
Theorem workflow_transition_table (s : GraphState.t) :
  StateGraph.successors workflow RETRIEVE s = Py.Ok [GRADE_DOCUMENTS]
  /\ StateGraph.successors workflow GRADE_DOCUMENTS s
     = Py.Ok [if GraphState.web_search s then WEBSEARCH else GENERATE]
  /\ StateGraph.successors workflow WEBSEARCH s = Py.Ok [GENERATE]
  /\ (gate s = "not supported" /\
        StateGraph.successors workflow GENERATE s = Py.Ok [GENERATE]
      \/ gate s = "useful" /\
        StateGraph.successors workflow GENERATE s = Py.Ok [StateGraph.END]
      \/ gate s = "not useful" /\
        StateGraph.successors workflow GENERATE s = Py.Ok [WEBSEARCH])
  /\ StateGraph.successors workflow StateGraph.END s = Py.Ok [].
Proof.
  split; [apply successors_RETRIEVE |].
  split; [apply successors_GRADE_DOCUMENTS |].
  split; [apply successors_WEBSEARCH |].
  split; [|apply successors_END].
  rewrite successors_GENERATE.
  destruct (gate_cases hallucination_grader answer_grader s) as [H | [H | H]];
    rewrite H; auto.
Qed.

End workflow_facts.

Lemma sample_names_distinct :
  NoDup [sample.RETRIEVE; sample.GRADE_DOCUMENTS; sample.GENERATE; sample.WEBSEARCH;
         StateGraph.END].
Proof. by apply (bool_decide_unpack _). Defined.

Lemma workflow_transition_table_witness :
  NoDup [sample.RETRIEVE; sample.GRADE_DOCUMENTS; sample.GENERATE; sample.WEBSEARCH;
         StateGraph.END]
  /\ let w := sample.workflow (router_py.question_router (Some sample.to_vectorstore))
                sample.search in
     let s := GraphState.mk "What is his education?" "Cairo University." true
                [sample.page0] in
     StateGraph.successors w "retrieve" s = Py.Ok ["grade_documents"]
     /\ StateGraph.successors w "grade_documents" s = Py.Ok ["websearch"]
     /\ StateGraph.successors w "websearch" s = Py.Ok ["generate"]
     /\ StateGraph.successors w "generate" s = Py.Ok ["__end__"]
     /\ StateGraph.successors w "__end__" s = Py.Ok [].
Proof.
  split; [exact sample_names_distinct |].
  intros w s.
  destruct (workflow_transition_table
              sample.RETRIEVE sample.GRADE_DOCUMENTS sample.GENERATE sample.WEBSEARCH
              sample.grounded (Some sample.addresses)
              (router_py.question_router (Some sample.to_vectorstore))
              (nodes.retrieve sample.retriever)
              (nodes.grade_documents sample.grader)
              (nodes.generate (generation_py.generation_chain (Some sample.says_yes)))
              (nodes.web_search sample.search)
              sample_names_distinct s)
    as (Hretrieve & Hgrade & Hsearch & Hgenerate & Hend).
  split; [exact Hretrieve |].
  split; [exact Hgrade |].
  split; [exact Hsearch |].
  split; [|exact Hend].
  destruct Hgenerate as [[Hgate _] | [[_ Hnext] | [Hgate _]]];
    [discriminate Hgate | exact Hnext | discriminate Hgate].
Defined.

(** ** Routing *)

Example entry_with_router :
  StateGraph.entry
    (sample.workflow (router_py.question_router (Some sample.to_vectorstore)) sample.search)
    (sample.state [])
  = Py.Ok "retrieve".
Proof. vm_compute. reflexivity. Qed.

Example entry_without_router :
  StateGraph.entry
    (sample.workflow (router_py.question_router None) sample.search)
    (sample.state [])
  = Py.Raise (Py.AttributeError "'function' object has no attribute 'invoke'").
Proof. vm_compute. reflexivity. Qed.

(** C4 fails on the code.  When the routing model could not be built,
    question_router is bound to default_router, a plain function, and
    route_question asks it for an invoke method: the step raises
    AttributeError instead of returning RETRIEVE.  When the model was
    built and its call fails, route_question has no handler and raises
    what the call raised. *)
Theorem route_question_classifier_failure_raises
    (RETRIEVE WEBSEARCH : string) (state : GraphState.t) :
  graph.route_question RETRIEVE WEBSEARCH (router_py.question_router None) state
  = Py.Raise (Py.AttributeError "'function' object has no attribute 'invoke'")
  /\ forall (llm : structured_model RouteQuery.t) (e : Py.exn),
       llm [("system", router_py.system); ("human", GraphState.question state)]
       = Py.Raise e ->
       graph.route_question RETRIEVE WEBSEARCH (router_py.question_router (Some llm)) state
       = Py.Raise e.
Proof.
  split; [reflexivity |].
  intros llm e Hraise. unfold graph.route_question. simpl. by rewrite Hraise.
Qed.

(** ** A failing search tool *)

Example web_search_no_results :
  nodes.web_search sample.search_nothing (sample.state [sample.page0])
  = Py.Ok (Update.mk (Some [sample.page0; nodes.web_doc ""])
                     (Some "What is his education?") None None).
Proof. reflexivity. Qed.

(** C7 does not hold as stated: with a search tool that is down, the
    web_search node raises what the tool raised, and so does the
    workflow's WEBSEARCH step; no document is produced and GENERATE is
    not reached. *)
Lemma web_search_adapter_down_counterexample :
  sample.search_down "What is his education?"
  = Py.Raise (Py.ServiceError "tavily unreachable")
  /\ nodes.web_search sample.search_down (sample.state [sample.page0])
     = Py.Raise (Py.ServiceError "tavily unreachable")
  /\ StateGraph.step
       (sample.workflow (router_py.question_router (Some sample.to_vectorstore))
          sample.search_down)
       sample.WEBSEARCH (sample.state [sample.page0])
     = Py.Raise (Py.ServiceError "tavily unreachable").
Proof. repeat split; vm_compute; reflexivity. Qed.

(** C7, amended. When the search tool's invocation fails, the web_search
    node has no handler: it raises the tool's exception, and the
    WEBSEARCH step of the workflow fails with it.  The node produces a
    document with empty content when the tool returns an empty result
    list; the turn then proceeds to GENERATE with that document appended. *)
Theorem web_search_failure_propagates
    (RETRIEVE GRADE_DOCUMENTS GENERATE WEBSEARCH : string)
    (hallucination_grader : list ImageDocument.t -> string -> Py.result GradeHallucinations.t)
    (answer_grader : option (string -> string -> Py.result GradeAnswer.t))
    (question_router : router_py.router)
    (retrieve grade_documents generate : node_action)
    (web_search_tool : string -> Py.result TavilyResponse.t)
    (state : GraphState.t) :
  NoDup [RETRIEVE; GRADE_DOCUMENTS; GENERATE; WEBSEARCH; StateGraph.END] ->
  let workflow :=
    graph.workflow RETRIEVE GRADE_DOCUMENTS GENERATE WEBSEARCH
      hallucination_grader answer_grader question_router
      retrieve grade_documents generate (nodes.web_search web_search_tool) in
  (forall e : Py.exn,
     web_search_tool (GraphState.question state) = Py.Raise e ->
     nodes.web_search web_search_tool state = Py.Raise e
     /\ StateGraph.step workflow WEBSEARCH state = Py.Raise e)
  /\ (web_search_tool (GraphState.question state) = Py.Ok (TavilyResponse.mk (Some [])) ->
      StateGraph.step workflow WEBSEARCH state
      = Py.Ok (GraphState.mk (GraphState.question state) (GraphState.generation state)
                 (GraphState.web_search state)
                 (GraphState.documents state ++ [nodes.web_doc ""]),
               [GENERATE])).
Proof.
  intros Hnames workflow.
  assert (Hstep : StateGraph.step workflow WEBSEARCH state
                  = (u ← nodes.web_search web_search_tool state;
                     Py.Ok (Update.apply u state, [GENERATE]))).
  { unfold StateGraph.step, workflow.
    rewrite lookup_node_WEBSEARCH by exact Hnames.
    destruct (nodes.web_search web_search_tool state) as [u|e]; [|done].
    simpl. by rewrite successors_WEBSEARCH. }
  split.
  - intros e Hraise.
    assert (Hnode : nodes.web_search web_search_tool state = Py.Raise e).
    { unfold nodes.web_search. by rewrite Hraise. }
    split; [exact Hnode |]. by rewrite Hstep, Hnode.
  - intros Hempty. rewrite Hstep.
    by rewrite (web_search_unfold web_search_tool state [] Hempty).
Qed.

Lemma web_search_failure_propagates_witness :
  NoDup [sample.RETRIEVE; sample.GRADE_DOCUMENTS; sample.GENERATE; sample.WEBSEARCH;
         StateGraph.END]
  /\ sample.search_nothing (GraphState.question (sample.state [sample.page0]))
     = Py.Ok (TavilyResponse.mk (Some []))
  /\ StateGraph.step
       (sample.workflow (router_py.question_router (Some sample.to_vectorstore))
          sample.search_nothing)
       sample.WEBSEARCH (sample.state [sample.page0])
     = Py.Ok (GraphState.mk "What is his education?" "" false
                [sample.page0; nodes.web_doc ""],
              ["generate"]).
Proof.
  split; [exact sample_names_distinct |].
  split; [reflexivity |].
  exact (proj2 (web_search_failure_propagates
                  sample.RETRIEVE sample.GRADE_DOCUMENTS sample.GENERATE sample.WEBSEARCH
                  sample.grounded (Some sample.addresses)
                  (router_py.question_router (Some sample.to_vectorstore))
                  (nodes.retrieve sample.retriever)
                  (nodes.grade_documents sample.grader)
                  (nodes.generate (generation_py.generation_chain (Some sample.says_yes)))
                  sample.search_nothing (sample.state [sample.page0])
                  sample_names_distinct)
               eq_refl).
Defined.

(** ** The classifiers as the chains build them *)

(** The relevance chain absorbs a failure of its model: it answers yes. *)
Lemma retrieval_grader_model_failure
    (llm : chat_model) (question : string) (document : ImageDocument.t) (e : Py.exn) :
  llm [{| content := retrieval_grader_py.parts question document |}] = Py.Raise e ->
  retrieval_grader_py.retrieval_grader (Some llm) question document
  = Py.Ok (GradeDocuments.mk "yes").
Proof.
  intros Hraise. unfold retrieval_grader_py.retrieval_grader. by rewrite Hraise.
Qed.

(** So a batch graded while the model is down is kept whole, without
    asking for a web search. *)
Lemma grade_loop_model_down (question : string) (documents : list ImageDocument.t) :
  nodes.grade_loop (retrieval_grader_py.retrieval_grader (Some sample.model_down))
    question documents
  = (documents, false).
Proof.
  induction documents as [|d documents IH]; [done |].
  rewrite grade_loop_cons, IH. reflexivity.
Qed.

Example retrieval_grader_sample :
  retrieval_grader_py.retrieval_grader (Some sample.says_yes) "q" sample.page0
  = Py.Ok (GradeDocuments.mk "yes").
Proof. vm_compute. reflexivity. Qed.

Example gate_grounding_failure :
  graph.grade_generation_grounded_in_documents_and_question
    (fun _ _ => Py.Raise (Py.ServiceError "503 unavailable")) (Some sample.addresses)
    (sample.state [sample.page0])
  = "useful".
Proof. reflexivity. Qed.

Example gate_not_grounded :
  graph.grade_generation_grounded_in_documents_and_question
    (fun _ _ => Py.Ok (GradeHallucinations.mk false)) (Some sample.addresses)
    (sample.state [sample.page0; sample.snippet])
  = "not supported".
Proof. reflexivity. Qed.

Example gate_text_only :
  graph.grade_generation_grounded_in_documents_and_question
    (fun _ _ => Py.Ok (GradeHallucinations.mk false))
    (Some (fun _ _ => Py.Ok (GradeAnswer.mk false)))
    (sample.state [sample.snippet])
  = "not useful".
Proof. reflexivity. Qed.

Example gate_without_answer_grader :
  graph.grade_generation_grounded_in_documents_and_question
    sample.grounded None (sample.state [sample.page0])
  = "useful".
Proof. reflexivity. Qed.

(** * Further properties of the chains and nodes *)

(** ** The relevance chain under grade_documents *)

Lemma retrieval_grader_never_raises
    (llm : option chat_model) (question : string) (document : ImageDocument.t) :
  retrieval_grader_py.retrieval_grader llm question document
  = Py.Ok (GradeDocuments.mk
             (if verdict.relevant llm question document then "yes" else "no")).
Proof.
  unfold retrieval_grader_py.retrieval_grader, verdict.relevant.
  destruct llm as [llm|]; [|done].
  destruct (llm _) as [response|e]; simpl; [|done].
  by destruct (Py.contains _ _).
Qed.

Lemma grade_one_chain
    (llm : option chat_model) (question : string) (document : ImageDocument.t) :
  nodes.grade_one (retrieval_grader_py.retrieval_grader llm) question ([], false) document
  = (if verdict.relevant llm question document then [document] else [],
     negb (verdict.relevant llm question document)).
Proof.
  unfold nodes.grade_one. rewrite retrieval_grader_never_raises.
  by destruct (verdict.relevant _ _ _).
Qed.

Example grade_documents_chain_sample :
  nodes.grade_loop (retrieval_grader_py.retrieval_grader (Some fixture.picky))
    "What is his education?" [sample.page1; sample.page0; sample.page2]
  = ([sample.page0], true).
Proof. vm_compute. reflexivity. Qed.

(** X1. With the relevance chain of retrieval_grader.py as its grader,
    grade_documents keeps exactly the documents for which the model is
    missing, failed, or answered with yes somewhere in its lower-cased
    answer, in input order; web_search is set exactly when some
    document was not kept.  The node's own exception handler is never
    reached, since the chain returns a score whatever the model does. *)
Theorem grade_documents_with_relevance_chain
    (llm : option chat_model) (state : GraphState.t) :
  let question := GraphState.question state in
  let documents := GraphState.documents state in
  nodes.grade_documents (retrieval_grader_py.retrieval_grader llm) state
  = Py.Ok (Update.mk
             (Some (List.filter (verdict.relevant llm question) documents))
             (Some question)
             (Some (negb (forallb (verdict.relevant llm question) documents)))
             None)
  /\ (forall document,
        exists score,
          retrieval_grader_py.retrieval_grader llm question document = Py.Ok score
          /\ (GradeDocuments.binary_score score = "yes"
              \/ GradeDocuments.binary_score score = "no"))
  /\ (llm = None ->
      List.filter (verdict.relevant llm question) documents = documents
      /\ forallb (verdict.relevant llm question) documents = true).
Proof.
  intros question documents.
  split.
  { rewrite (grade_documents_unfold _ question) by done.
    fold documents. do 3 f_equal.
    - induction documents as [|d docs IH]; [done |].
      rewrite grade_loop_cons, grade_one_chain. cbn [fst List.filter].
      rewrite IH. by destruct (verdict.relevant llm question d).
    - f_equal. induction documents as [|d docs IH]; [done |].
      rewrite grade_loop_cons, grade_one_chain. cbn [snd forallb].
      rewrite IH. by destruct (verdict.relevant llm question d), (forallb _ docs). }
  split.
  { intros document. eexists. split; [apply retrieval_grader_never_raises |].
    simpl. destruct (verdict.relevant _ _ _); auto. }
  intros ->. split.
  - induction documents as [|d docs IH]; [done |]. simpl. by rewrite IH.
  - by induction documents.
Qed.

(** ** The web_search flag *)

Lemma grade_loop_length
    (retrieval_grader : string -> ImageDocument.t -> Py.result GradeDocuments.t)
    (question : string) (documents : list ImageDocument.t) :
  length (fst (nodes.grade_loop retrieval_grader question documents)) <= length documents.
Proof. apply sublist_length, grade_loop_sublist. Qed.

(** X2. For every grader, grade_documents sets web_search exactly when it
    dropped a document: the flag is true if and only if the filtered
    list is shorter than the input.  In particular a batch that comes
    back whole never asks for a web search, and an empty batch goes
    straight to generation. *)
Theorem grade_documents_flag_iff_dropped
    (retrieval_grader : string -> ImageDocument.t -> Py.result GradeDocuments.t)
    (question : string) (documents : list ImageDocument.t) :
  (snd (nodes.grade_loop retrieval_grader question documents) = true
   <-> length (fst (nodes.grade_loop retrieval_grader question documents))
       < length documents)
  /\ (snd (nodes.grade_loop retrieval_grader question documents) = false
      <-> fst (nodes.grade_loop retrieval_grader question documents) = documents)
  /\ nodes.grade_loop retrieval_grader question [] = ([], false).
Proof.
  assert (Hchar : forall docs,
            (snd (nodes.grade_loop retrieval_grader question docs) = false
             /\ fst (nodes.grade_loop retrieval_grader question docs) = docs)
            \/ (snd (nodes.grade_loop retrieval_grader question docs) = true
                /\ length (fst (nodes.grade_loop retrieval_grader question docs))
                   < length docs)).
  { induction docs as [|d docs IH]; [by left |].
    rewrite grade_loop_cons.
    pose proof (grade_loop_length retrieval_grader question docs) as Hlen.
    destruct (grade_one_cases retrieval_grader question d) as [-> | ->]; cbn [fst snd].
    - destruct IH as [[-> ->] | [-> Hlt]]; [by left | right].
      split; [done |]. simpl. lia.
    - right. split; [done |]. simpl. lia. }
  split; [|split; [|done]].
  - destruct (Hchar documents) as [[Hflag Hall] | [Hflag Hlt]]; rewrite Hflag.
    + rewrite Hall. split; [done | lia].
    + done.
  - destruct (Hchar documents) as [[Hflag Hall] | [Hflag Hlt]]; rewrite Hflag.
    + done.
    + split; [done |]. intros Heq. rewrite Heq in Hlt. lia.
Qed.

(** ** Web search and the requests to the model *)

Lemma filter_is_image_web_doc (documents : list ImageDocument.t) (content : string) :
  List.filter is_image (documents ++ [nodes.web_doc content])
  = List.filter is_image documents.
Proof.
  rewrite List.filter_app. simpl. by rewrite app_nil_r.
Qed.

(** X3. Whenever the web_search node succeeds, the state it leaves sends the
    chat model the same requests as the state it found: the generation
    request, the set of image-bearing documents the gate hands to the
    grounding classifier, and that classifier's request are unchanged,
    whatever the search returned.  The documents grow by one and the
    question stays. *)
Theorem web_search_leaves_requests_unchanged
    (web_search_tool : string -> Py.result TavilyResponse.t)
    (state : GraphState.t) (update : Update.t) :
  nodes.web_search web_search_tool state = Py.Ok update ->
  let state' := Update.apply update state in
  generation_py.parts (GraphState.question state') (GraphState.documents state')
  = generation_py.parts (GraphState.question state) (GraphState.documents state)
  /\ List.filter is_image (GraphState.documents state')
     = List.filter is_image (GraphState.documents state)
  /\ (forall generation,
        hallucination_grader_py.parts (GraphState.documents state') generation
        = hallucination_grader_py.parts (GraphState.documents state) generation)
  /\ length (GraphState.documents state') = S (length (GraphState.documents state))
  /\ GraphState.question state' = GraphState.question state
  /\ GraphState.web_search state' = GraphState.web_search state
  /\ GraphState.generation state' = GraphState.generation state.
Proof.
  intros Hrun state'.
  assert (Hshape : exists content,
             update = Update.mk (Some (GraphState.documents state ++ [nodes.web_doc content]))
                                (Some (GraphState.question state)) None None).
  { unfold nodes.web_search in Hrun.
    destruct (web_search_tool _) as [[[results|]]|e]; simpl in Hrun; [|done|done].
    eexists. destruct (GraphState.documents state); simpl in Hrun; by inversion Hrun. }
  destruct Hshape as [content ->].
  assert (Hdocs : GraphState.documents state'
                  = GraphState.documents state ++ [nodes.web_doc content]) by done.
  assert (Hq : GraphState.question state' = GraphState.question state) by done.
  rewrite Hdocs, Hq.
  split; [by rewrite !generation_parts_spec, filter_is_image_web_doc |].
  split; [apply filter_is_image_web_doc |].
  split; [intros g; by rewrite !hallucination_parts_spec, filter_is_image_web_doc |].
  split; [rewrite length_app; simpl; lia |].
  done.
Qed.

Lemma web_search_leaves_requests_unchanged_witness :
  nodes.web_search sample.search (sample.state [sample.page0])
  = Py.Ok (Update.mk
             (Some [sample.page0;
                    nodes.web_doc ("Cairo" +:+ Py.newline +:+ "Nile")])
             (Some "What is his education?") None None)
  /\ generation_py.parts "What is his education?"
       [sample.page0; nodes.web_doc ("Cairo" +:+ Py.newline +:+ "Nile")]
     = generation_py.parts "What is his education?" [sample.page0].
Proof.
  split; [reflexivity |].
  exact (proj1 (web_search_leaves_requests_unchanged sample.search
                  (sample.state [sample.page0]) _ eq_refl)).
Defined.

(** * Steps and turns of the workflow *)

Section step_facts.
Variables RETRIEVE GRADE_DOCUMENTS GENERATE WEBSEARCH : string.
Variable hallucination_grader :
  list ImageDocument.t -> string -> Py.result GradeHallucinations.t.
Variable answer_grader : option (string -> string -> Py.result GradeAnswer.t).
Variable question_router : router_py.router.
Variables retrieve grade_documents generate web_search : node_action.

Hypothesis names_distinct :
  NoDup [RETRIEVE; GRADE_DOCUMENTS; GENERATE; WEBSEARCH; StateGraph.END].

Local Abbreviation workflow :=
  (graph.workflow RETRIEVE GRADE_DOCUMENTS GENERATE WEBSEARCH
     hallucination_grader answer_grader question_router
     retrieve grade_documents generate web_search).
Local Abbreviation gate :=
  (graph.grade_generation_grounded_in_documents_and_question
     hallucination_grader answer_grader).

Lemma step_RETRIEVE (s : GraphState.t) :
  StateGraph.step workflow RETRIEVE s
  = (u ← retrieve s; Py.Ok (Update.apply u s, [GRADE_DOCUMENTS])).
Proof.
  destruct (names_ne _ _ _ _ names_distinct)
    as (H1 & H2 & H3 & H4 & H5 & H6 & H7 & H8 & H9 & H10).
  unfold StateGraph.step.
  replace (StateGraph.lookup_node RETRIEVE (StateGraph.node_table workflow))
    with (Some retrieve) by (cbn; by eqb_names).
  destruct (retrieve s) as [u|e]; [|done].
  simpl. by rewrite successors_RETRIEVE.
Qed.

Lemma step_GRADE_DOCUMENTS (s : GraphState.t) :
  StateGraph.step workflow GRADE_DOCUMENTS s
  = (u ← grade_documents s;
     Py.Ok (Update.apply u s,
            [if GraphState.web_search (Update.apply u s) then WEBSEARCH else GENERATE])).
Proof.
  destruct (names_ne _ _ _ _ names_distinct)
    as (H1 & H2 & H3 & H4 & H5 & H6 & H7 & H8 & H9 & H10).
  unfold StateGraph.step.
  replace (StateGraph.lookup_node GRADE_DOCUMENTS (StateGraph.node_table workflow))
    with (Some grade_documents) by (cbn; by eqb_names).
  destruct (grade_documents s) as [u|e]; [|done].
  simpl. by rewrite successors_GRADE_DOCUMENTS.
Qed.

Lemma step_GENERATE (s : GraphState.t) :
  StateGraph.step workflow GENERATE s
  = (u ← generate s;
     Py.Ok (Update.apply u s, [turn.after_generate GENERATE WEBSEARCH (gate (Update.apply u s))])).
Proof.
  destruct (names_ne _ _ _ _ names_distinct)
    as (H1 & H2 & H3 & H4 & H5 & H6 & H7 & H8 & H9 & H10).
  unfold StateGraph.step.
  replace (StateGraph.lookup_node GENERATE (StateGraph.node_table workflow))
    with (Some generate) by (cbn; by eqb_names).
  destruct (generate s) as [u|e]; [|done].
  simpl. by rewrite successors_GENERATE.
Qed.

Lemma step_WEBSEARCH (s : GraphState.t) :
  StateGraph.step workflow WEBSEARCH s
  = (u ← web_search s; Py.Ok (Update.apply u s, [GENERATE])).
Proof.
  unfold StateGraph.step.
  rewrite lookup_node_WEBSEARCH by exact names_distinct.
  destruct (web_search s) as [u|e]; [|done].
  simpl. by rewrite successors_WEBSEARCH.
Qed.

Lemma lookup_node_cases (n : string) (action : node_action) :
  StateGraph.lookup_node n (StateGraph.node_table workflow) = Some action ->
  action = retrieve \/ action = grade_documents \/ action = generate
  \/ action = web_search.
Proof.
  cbn. repeat (destruct (String.eqb _ n); [intros [= <-]; auto |]). done.
Qed.

End step_facts.

(** ** The nodes inside the workflow *)

Lemma generate_unfold
    (generation_chain : list ImageDocument.t -> string -> Py.result string)
    (s : GraphState.t) :
  nodes.generate generation_chain s
  = Py.Ok (Update.mk (Some (GraphState.documents s)) (Some (GraphState.question s)) None
             (Some (Py.try_except
                      (generation_chain (GraphState.documents s) (GraphState.question s))
                      (fun _ => nodes.fallback_generation (GraphState.question s))))).
Proof.
  unfold nodes.generate. by destruct (generation_chain _ _).
Qed.

Lemma run_step (g : StateGraph.t) (fuel : nat) (n m : string) (s s' : GraphState.t) :
  n <> StateGraph.END ->
  StateGraph.step g n s = Py.Ok (s', [m]) ->
  turn.run g (S fuel) n s = turn.run g fuel m s'.
Proof.
  intros Hne Hstep. cbn [turn.run].
  rewrite (proj2 (String.eqb_neq _ _) Hne), Hstep. reflexivity.
Qed.

Lemma run_zero (g : StateGraph.t) (n : string) (s : GraphState.t) :
  n <> StateGraph.END ->
  turn.run g 0 n s = Py.Ok (turn.Running n s).
Proof.
  intros Hne. cbn [turn.run]. by rewrite (proj2 (String.eqb_neq _ _) Hne).
Qed.

Section turn_facts.
Variables RETRIEVE GRADE_DOCUMENTS GENERATE WEBSEARCH : string.
Variable hallucination_grader :
  list ImageDocument.t -> string -> Py.result GradeHallucinations.t.
Variable answer_grader : option (string -> string -> Py.result GradeAnswer.t).
Variable question_router : router_py.router.
Variable retriever : string -> Py.result (list Document.t).
Variable retrieval_grader : string -> ImageDocument.t -> Py.result GradeDocuments.t.
Variable generation_chain : list ImageDocument.t -> string -> Py.result string.
Variable web_search_tool : string -> Py.result TavilyResponse.t.

Local Abbreviation workflow :=
  (graph.workflow RETRIEVE GRADE_DOCUMENTS GENERATE WEBSEARCH
     hallucination_grader answer_grader question_router
     (nodes.retrieve retriever) (nodes.grade_documents retrieval_grader)
     (nodes.generate generation_chain) (nodes.web_search web_search_tool)).
Local Abbreviation gate :=
  (graph.grade_generation_grounded_in_documents_and_question
     hallucination_grader answer_grader).

(** X4. Whatever node runs, and whatever the node names are, a step that
    succeeds leaves the question of the turn as it was. *)
Theorem step_preserves_question
    (n : string) (s s' : GraphState.t) (next : list string) :
  StateGraph.step workflow n s = Py.Ok (s', next) ->
  GraphState.question s' = GraphState.question s.
Proof.
  unfold StateGraph.step.
  destruct (StateGraph.lookup_node n _) as [action|] eqn:Hlookup; [|done].
  apply lookup_node_cases in Hlookup.
  destruct (action s) as [u|e] eqn:Haction; [|done].
  simpl. destruct (StateGraph.successors _ _ _) as [nx|e]; [|done].
  simpl. intros [= <- _].
  assert (Hq : Update.question u = Some (GraphState.question s)).
  { destruct Hlookup as [-> | [-> | [-> | ->]]].
    - unfold nodes.retrieve in Haction.
      destruct (retriever _); simpl in Haction; by inversion Haction.
    - rewrite (grade_documents_unfold _ (GraphState.question s)) in Haction by done.
      by inversion Haction.
    - rewrite generate_unfold in Haction. by inversion Haction.
    - unfold nodes.web_search in Haction.
      destruct (web_search_tool _) as [[[r|]]|e]; simpl in Haction; [|done|done].
      by inversion Haction. }
  unfold Update.apply. simpl. by rewrite Hq.
Qed.

Hypothesis names_distinct :
  NoDup [RETRIEVE; GRADE_DOCUMENTS; GENERATE; WEBSEARCH; StateGraph.END].

Lemma step_generate_node (s : GraphState.t) :
  let s' := GraphState.mk (GraphState.question s)
              (Py.try_except
                 (generation_chain (GraphState.documents s) (GraphState.question s))
                 (fun _ => nodes.fallback_generation (GraphState.question s)))
              (GraphState.web_search s) (GraphState.documents s) in
  StateGraph.step workflow GENERATE s
  = Py.Ok (s', [turn.after_generate GENERATE WEBSEARCH (gate s')]).
Proof.
  intros s'. rewrite step_GENERATE by exact names_distinct.
  by rewrite generate_unfold.
Qed.

(** X5. The GENERATE step never fails: when the generation chain raises, the
    node answers with its apology, which quotes the question.  Either
    way the step leaves documents, question and web_search untouched,
    stores the new generation, and moves on by the gate's label for the
    new state. *)
Theorem generate_step_total (s : GraphState.t) :
  let generation :=
    match generation_chain (GraphState.documents s) (GraphState.question s) with
    | Py.Ok answer => answer
    | Py.Raise _ => nodes.fallback_generation (GraphState.question s)
    end in
  let s' := GraphState.mk (GraphState.question s) generation (GraphState.web_search s)
              (GraphState.documents s) in
  StateGraph.step workflow GENERATE s
  = Py.Ok (s', [turn.after_generate GENERATE WEBSEARCH (gate s')])
  /\ Py.contains (GraphState.question s)
       (nodes.fallback_generation (GraphState.question s)) = true.
Proof.
  intros generation s'. split.
  - rewrite step_generate_node. subst s' generation. unfold Py.try_except.
    by destruct (generation_chain _ _).
  - unfold nodes.fallback_generation. apply contains_append, contains_here.
Qed.

(** X6. If the grounding classifier keeps answering that the generation is
    not grounded, a turn that reaches GENERATE with an image-bearing
    document never ends: after any number of steps it is about to run
    GENERATE again, over the same documents and question.  The workflow
    itself has no bound on regeneration. *)
Theorem regeneration_never_ends (fuel : nat) (s : GraphState.t) :
  (forall documents generation,
     hallucination_grader documents generation
     = Py.Ok (GradeHallucinations.mk false)) ->
  List.filter is_image (GraphState.documents s) <> [] ->
  exists s' : GraphState.t,
    turn.run workflow fuel GENERATE s = Py.Ok (turn.Running GENERATE s')
    /\ GraphState.documents s' = GraphState.documents s
    /\ GraphState.question s' = GraphState.question s.
Proof.
  intros Hnever.
  destruct (names_ne _ _ _ _ names_distinct)
    as (H1 & H2 & H3 & H4 & H5 & H6 & H7 & H8 & H9 & H10).
  revert s. induction fuel as [|fuel IH]; intros s Himages.
  - exists s. by rewrite run_zero.
  - pose proof (step_generate_node s) as Hstep. cbv zeta in Hstep.
    set (s1 := GraphState.mk _ _ _ _) in Hstep.
    assert (Hgate : gate s1 = "not supported").
    { unfold graph.grade_generation_grounded_in_documents_and_question. simpl.
      destruct (List.filter is_image (GraphState.documents s)); [done |].
      by rewrite Hnever. }
    rewrite Hgate in Hstep.
    destruct (IH s1 Himages) as (s' & Hrun & Hdocs & Hq).
    exists s'. split; [|by split].
    by rewrite (run_step _ _ _ _ _ _ H9 Hstep).
Qed.

(** X7. If the answer classifier keeps answering that the generation does
    not address the question, while the generation counts as grounded
    and the search tool keeps returning results, a turn that reaches
    GENERATE never ends either: after 2k steps it is about to run
    GENERATE again, with k web-search documents appended to the
    documents it started from. *)
Theorem escalation_never_ends
    (chain : string -> string -> Py.result GradeAnswer.t)
    (tavily_results : list TavilyResult.t) (k : nat) (s : GraphState.t) :
  answer_grader = Some chain ->
  (forall question generation, chain question generation = Py.Ok (GradeAnswer.mk false)) ->
  (forall documents generation,
     hallucination_grader documents generation = Py.Ok (GradeHallucinations.mk true)) ->
  web_search_tool (GraphState.question s)
  = Py.Ok (TavilyResponse.mk (Some tavily_results)) ->
  exists s' : GraphState.t,
    turn.run workflow (2 * k) GENERATE s = Py.Ok (turn.Running GENERATE s')
    /\ length (GraphState.documents s') = length (GraphState.documents s) + k
    /\ take (length (GraphState.documents s)) (GraphState.documents s')
       = GraphState.documents s
    /\ List.filter is_image (GraphState.documents s')
       = List.filter is_image (GraphState.documents s).
Proof.
  intros Hchain Hoff Hgrounded.
  destruct (names_ne _ _ _ _ names_distinct)
    as (H1 & H2 & H3 & H4 & H5 & H6 & H7 & H8 & H9 & H10).
  revert s. induction k as [|k IH]; intros s Hsearch.
  - exists s. rewrite run_zero by done.
    split; [done |]. split; [lia |]. split; [by rewrite take_ge | done].
  - pose proof (step_generate_node s) as Hstep. cbv zeta in Hstep.
    set (s1 := GraphState.mk _ _ _ _) in Hstep.
    assert (Hgate : gate s1 = "not useful").
    { unfold graph.grade_generation_grounded_in_documents_and_question,
        graph.answer_grader_invoke.
      rewrite Hchain. simpl.
      destruct (List.filter is_image (GraphState.documents s));
        simpl; rewrite ?Hgrounded; simpl; by rewrite Hoff. }
    rewrite Hgate in Hstep.
    assert (Hstep2 : exists s2,
               StateGraph.step workflow WEBSEARCH s1 = Py.Ok (s2, [GENERATE])
               /\ GraphState.question s2 = GraphState.question s
               /\ exists web_doc,
                    GraphState.documents s2 = GraphState.documents s ++ [web_doc]
                    /\ is_image web_doc = false).
    { rewrite step_WEBSEARCH by exact names_distinct.
      rewrite (web_search_unfold web_search_tool s1 tavily_results Hsearch).
      eexists. split; [reflexivity |]. split; [done |].
      eexists. split; [reflexivity | done]. }
    destruct Hstep2 as (s2 & Hstep2 & Hq2 & web_doc & Hdocs2 & Htext).
    destruct (IH s2) as (s' & Hrun & Hlen & Htake & Himages).
    { by rewrite Hq2. }
    exists s'.
    replace (2 * S k) with (S (S (2 * k))) by lia.
    split.
    { by rewrite (run_step _ _ _ _ _ _ H9 Hstep), (run_step _ _ _ _ _ _ H10 Hstep2). }
    rewrite Hdocs2 in Hlen, Htake, Himages.
    rewrite length_app in Hlen, Htake. simpl in Hlen, Htake.
    split; [lia |].
    split.
    { transitivity (take (length (GraphState.documents s))
                      (take (length (GraphState.documents s) + 1)
                            (GraphState.documents s'))).
      - rewrite take_take. f_equal. lia.
      - rewrite Htake. apply take_app_length. }
    rewrite Himages, List.filter_app. simpl. rewrite Htext. apply app_nil_r.
Qed.

End turn_facts.


Lemma step_preserves_question_witness :
  StateGraph.step
    (sample.workflow (router_py.question_router (Some sample.to_vectorstore)) sample.search)
    sample.GRADE_DOCUMENTS (sample.state [sample.page0; sample.page1])
  = Py.Ok (GraphState.mk "What is his education?" "" true [sample.page0], ["websearch"])
  /\ GraphState.question (GraphState.mk "What is his education?" "" true [sample.page0])
     = GraphState.question (sample.state [sample.page0; sample.page1]).
Proof.
  split; [reflexivity |].
  exact (step_preserves_question
           sample.RETRIEVE sample.GRADE_DOCUMENTS sample.GENERATE sample.WEBSEARCH
           sample.grounded (Some sample.addresses)
           (router_py.question_router (Some sample.to_vectorstore))
           sample.retriever sample.grader
           (generation_py.generation_chain (Some sample.says_yes)) sample.search
           sample.GRADE_DOCUMENTS (sample.state [sample.page0; sample.page1])
           _ _ eq_refl).
Defined.

Lemma generate_step_total_witness :
  NoDup [sample.RETRIEVE; sample.GRADE_DOCUMENTS; sample.GENERATE; sample.WEBSEARCH;
         StateGraph.END]
  /\ StateGraph.step
       (graph.workflow sample.RETRIEVE sample.GRADE_DOCUMENTS sample.GENERATE
          sample.WEBSEARCH sample.grounded (Some sample.addresses)
          (router_py.question_router (Some sample.to_vectorstore))
          (nodes.retrieve sample.retriever) (nodes.grade_documents sample.grader)
          (nodes.generate (generation_py.generation_chain (Some sample.model_down)))
          (nodes.web_search sample.search))
       sample.GENERATE (sample.state [sample.page0])
     = Py.Ok (GraphState.mk "What is his education?"
                (nodes.fallback_generation "What is his education?") false [sample.page0],
              ["__end__"]).
Proof.
  split; [exact sample_names_distinct |].
  exact (proj1 (generate_step_total
                  sample.RETRIEVE sample.GRADE_DOCUMENTS sample.GENERATE sample.WEBSEARCH
                  sample.grounded (Some sample.addresses)
                  (router_py.question_router (Some sample.to_vectorstore))
                  sample.retriever sample.grader
                  (generation_py.generation_chain (Some sample.model_down)) sample.search
                  sample_names_distinct (sample.state [sample.page0]))).
Defined.

Lemma regeneration_never_ends_witness :
  NoDup [sample.RETRIEVE; sample.GRADE_DOCUMENTS; sample.GENERATE; sample.WEBSEARCH;
         StateGraph.END]
  /\ (forall documents generation,
        fixture.ungrounded documents generation = Py.Ok (GradeHallucinations.mk false))
  /\ List.filter is_image (GraphState.documents (sample.state [sample.page0])) <> []
  /\ exists s' : GraphState.t,
       turn.run
         (fixture.workflow fixture.ungrounded (Some sample.addresses)
            (router_py.question_router (Some sample.to_vectorstore)) sample.search)
         25 sample.GENERATE (sample.state [sample.page0])
       = Py.Ok (turn.Running sample.GENERATE s')
       /\ GraphState.documents s' = [sample.page0].
Proof.
  split; [exact sample_names_distinct |].
  split; [reflexivity |].
  assert (Himages : List.filter is_image (GraphState.documents (sample.state [sample.page0]))
                    <> []) by discriminate.
  split; [exact Himages |].
  destruct (regeneration_never_ends
              sample.RETRIEVE sample.GRADE_DOCUMENTS sample.GENERATE sample.WEBSEARCH
              fixture.ungrounded (Some sample.addresses)
              (router_py.question_router (Some sample.to_vectorstore))
              sample.retriever sample.grader
              (generation_py.generation_chain (Some sample.says_yes)) sample.search
              sample_names_distinct 25 (sample.state [sample.page0])
              (fun _ _ => eq_refl) Himages)
    as (s' & Hrun & Hdocs & _).
  exists s'. split; [exact Hrun | exact Hdocs].
Defined.

Lemma escalation_never_ends_witness :
  NoDup [sample.RETRIEVE; sample.GRADE_DOCUMENTS; sample.GENERATE; sample.WEBSEARCH;
         StateGraph.END]
  /\ sample.search (GraphState.question (sample.state [sample.page0]))
     = Py.Ok (TavilyResponse.mk
                (Some [TavilyResult.mk "Egypt" "https://example.org/egypt" "Cairo";
                       TavilyResult.mk "Nile" "https://example.org/nile" "Nile"]))
  /\ exists s' : GraphState.t,
       turn.run
         (fixture.workflow sample.grounded (Some fixture.off_topic)
            (router_py.question_router (Some sample.to_vectorstore)) sample.search)
         (2 * 3) sample.GENERATE (sample.state [sample.page0])
       = Py.Ok (turn.Running sample.GENERATE s')
       /\ length (GraphState.documents s') = 1 + 3.
Proof.
  split; [exact sample_names_distinct |].
  split; [reflexivity |].
  destruct (escalation_never_ends
              sample.RETRIEVE sample.GRADE_DOCUMENTS sample.GENERATE sample.WEBSEARCH
              sample.grounded (Some fixture.off_topic)
              (router_py.question_router (Some sample.to_vectorstore))
              sample.retriever sample.grader
              (generation_py.generation_chain (Some sample.says_yes)) sample.search
              sample_names_distinct fixture.off_topic _ 3 (sample.state [sample.page0])
              eq_refl (fun _ _ => eq_refl) (fun _ _ => eq_refl) eq_refl)
    as (s' & Hrun & Hlen & _).
  exists s'. split; [exact Hrun | exact Hlen].
Defined.

(** ** Without a chat model *)

Lemma grade_loop_without_model (question : string) (documents : list ImageDocument.t) :
  nodes.grade_loop (retrieval_grader_py.retrieval_grader None) question documents
  = (documents, false).
Proof.
  induction documents as [|d documents IH]; [done |].
  rewrite grade_loop_cons, IH. reflexivity.
Qed.

Example degraded_turn_sample :
  turn.run fixture.degraded_workflow 25 sample.GRADE_DOCUMENTS
    (sample.state [sample.page0; sample.page1])
  = Py.Ok (turn.Finished
             (GraphState.mk "What is his education?"
                "Error: LLM not initialized. Please check your API key configuration."
                false [sample.page0; sample.page1])).
Proof. vm_compute. reflexivity. Qed.

(** X8. When no chat model could be built, every chain falls back and the
    part of a turn after retrieval is fixed: GRADE_DOCUMENTS keeps all
    documents and does not ask for a web search, GENERATE stores the
    "LLM not initialized" message as the answer, the gate calls it
    useful, and the turn ends after these two steps, whatever the
    question and the documents. *)
Theorem turn_without_model
    (RETRIEVE GRADE_DOCUMENTS GENERATE WEBSEARCH : string)
    (retriever : string -> Py.result (list Document.t))
    (web_search_tool : string -> Py.result TavilyResponse.t)
    (fuel : nat) (s : GraphState.t) :
  NoDup [RETRIEVE; GRADE_DOCUMENTS; GENERATE; WEBSEARCH; StateGraph.END] ->
  turn.run
    (graph.workflow RETRIEVE GRADE_DOCUMENTS GENERATE WEBSEARCH
       (hallucination_grader_py.hallucination_grader None)
       (answer_grader_py.answer_grader None)
       (router_py.question_router None)
       (nodes.retrieve retriever)
       (nodes.grade_documents (retrieval_grader_py.retrieval_grader None))
       (nodes.generate (generation_py.generation_chain None))
       (nodes.web_search web_search_tool))
    (2 + fuel) GRADE_DOCUMENTS s
  = Py.Ok (turn.Finished
             (GraphState.mk (GraphState.question s)
                "Error: LLM not initialized. Please check your API key configuration."
                false (GraphState.documents s))).
Proof.
  intros Hnames.
  destruct (names_ne _ _ _ _ Hnames) as (H1 & H2 & H3 & H4 & H5 & H6 & H7 & H8 & H9 & H10).
  set (s1 := GraphState.mk (GraphState.question s) (GraphState.generation s) false
               (GraphState.documents s)).
  set (s2 := GraphState.mk (GraphState.question s)
               "Error: LLM not initialized. Please check your API key configuration."
               false (GraphState.documents s)).
  change (2 + fuel) with (S (S fuel)).
  rewrite (run_step _ _ GRADE_DOCUMENTS GENERATE s s1 H8).
  2:{ rewrite step_GRADE_DOCUMENTS by exact Hnames.
      rewrite (grade_documents_unfold _ (GraphState.question s)) by done.
      by rewrite grade_loop_without_model. }
  rewrite (run_step _ _ GENERATE StateGraph.END s1 s2 H9).
  2:{ rewrite step_GENERATE by exact Hnames.
      rewrite generate_unfold. simpl.
      replace (graph.grade_generation_grounded_in_documents_and_question _ _ _)
        with "useful"; [done |].
      unfold graph.grade_generation_grounded_in_documents_and_question. simpl.
      by destruct (List.filter is_image (GraphState.documents s)). }
  by destruct fuel.
Qed.

Lemma turn_without_model_witness :
  NoDup [sample.RETRIEVE; sample.GRADE_DOCUMENTS; sample.GENERATE; sample.WEBSEARCH;
         StateGraph.END]
  /\ turn.run fixture.degraded_workflow 2 sample.GRADE_DOCUMENTS
       (sample.state [sample.page1])
     = Py.Ok (turn.Finished
                (GraphState.mk "What is his education?"
                   "Error: LLM not initialized. Please check your API key configuration."
                   false [sample.page1])).
Proof.
  split; [exact sample_names_distinct |].
  exact (turn_without_model
           sample.RETRIEVE sample.GRADE_DOCUMENTS sample.GENERATE sample.WEBSEARCH
           sample.retriever sample.search 0 (sample.state [sample.page1])
           sample_names_distinct).
Defined.


(** ** The grounding chain under the gate *)

Example gate_with_chain_sample :
  graph.grade_generation_grounded_in_documents_and_question
    (hallucination_grader_py.hallucination_grader (Some fixture.says_no))
    (Some sample.addresses) (sample.state [sample.page0])
  = "not supported".
Proof. vm_compute. reflexivity. Qed.

(** X9. With the grounding chain of hallucination_grader.py, the gate
    answers not supported only when there is an image-bearing document,
    the model was built, its call returned, and its answer, lower-cased
    and stripped, contains neither yes nor true.  A missing or failing
    grounding model can therefore never send the turn back to
    GENERATE. *)
Theorem gate_not_supported_needs_model_answer
    (llm : option chat_model)
    (answer_grader : option (string -> string -> Py.result GradeAnswer.t))
    (state : GraphState.t) :
  graph.grade_generation_grounded_in_documents_and_question
    (hallucination_grader_py.hallucination_grader llm) answer_grader state
  = "not supported" ->
  List.filter is_image (GraphState.documents state) <> []
  /\ exists (model : chat_model) (response : string),
       llm = Some model
       /\ model [{| content :=
                      hallucination_grader_py.parts
                        (List.filter is_image (GraphState.documents state))
                        (GraphState.generation state) |}]
          = Py.Ok response
       /\ Py.contains "yes" (Py.strip (Py.lower response)) = false
       /\ Py.contains "true" (Py.strip (Py.lower response)) = false.
Proof.
  unfold graph.grade_generation_grounded_in_documents_and_question,
    graph.answer_grader_invoke, hallucination_grader_py.hallucination_grader.
  set (images := List.filter is_image (GraphState.documents state)).
  assert (Hrest :
            Py.try_except
              (invoke ← match answer_grader with
                        | Some chain => Py.Ok chain
                        | None => Py.Raise
                            (Py.AttributeError "'NoneType' object has no attribute 'invoke'")
                        end;
               score ← invoke (GraphState.question state) (GraphState.generation state);
               if GradeAnswer.binary_score score
               then Py.Ok "useful" else Py.Ok "not useful")
              (fun _ => "useful") <> "not supported").
  { destruct answer_grader as [chain|]; simpl; [|done].
    destruct (chain _ _) as [[[|]]|e]; simpl; done. }
  destruct images as [|d rest] eqn:Himages.
  { simpl. intros H. exact (False_ind _ (Hrest H)). }
  destruct llm as [model|]; simpl.
  2:{ intros H. exact (False_ind _ (Hrest H)). }
  destruct (model _) as [response|e] eqn:Hmodel; simpl.
  2:{ intros H. exact (False_ind _ (Hrest H)). }
  destruct (Py.contains "yes" _) eqn:Hyes; simpl.
  { intros H. exact (False_ind _ (Hrest H)). }
  destruct (Py.contains "true" _) eqn:Htrue; simpl.
  { intros H. exact (False_ind _ (Hrest H)). }
  intros _. split; [done |].
  exists model, response. by rewrite Hmodel.
Qed.

Lemma gate_not_supported_needs_model_answer_witness :
  graph.grade_generation_grounded_in_documents_and_question
    (hallucination_grader_py.hallucination_grader (Some fixture.says_no))
    (Some sample.addresses) (sample.state [sample.page0; sample.snippet])
  = "not supported"
  /\ List.filter is_image [sample.page0; sample.snippet] <> [].
Proof.
  split; [vm_compute; reflexivity |].
  exact (proj1 (gate_not_supported_needs_model_answer
                  (Some fixture.says_no) (Some sample.addresses)
                  (sample.state [sample.page0; sample.snippet])
                  eq_refl)).
Defined.

(** ** The entry decision *)

Example entry_to_websearch :
  StateGraph.entry
    (sample.workflow (router_py.question_router (Some fixture.to_websearch)) sample.search)
    (sample.state [])
  = Py.Ok "websearch".
Proof. vm_compute. reflexivity. Qed.

(** X10. When the routing chain answers, the turn starts by its answer,
    provided the WEBSEARCH constant is spelled websearch, the value the
    chain's answer is compared with: a vectorstore answer starts at
    RETRIEVE and a websearch answer at WEBSEARCH.  With any other
    spelling a websearch answer matches neither comparison and
    route_question falls off its end, returning None. *)
Theorem entry_follows_router
    (RETRIEVE GRADE_DOCUMENTS GENERATE WEBSEARCH : string)
    (hallucination_grader : list ImageDocument.t -> string -> Py.result GradeHallucinations.t)
    (answer_grader : option (string -> string -> Py.result GradeAnswer.t))
    (retrieve grade_documents generate web_search : node_action)
    (llm : structured_model RouteQuery.t) (source : RouteQuery.t) (state : GraphState.t) :
  llm [("system", router_py.system); ("human", GraphState.question state)]
  = Py.Ok source ->
  let question_router := router_py.question_router (Some llm) in
  (WEBSEARCH = "websearch" ->
   StateGraph.entry
     (graph.workflow RETRIEVE GRADE_DOCUMENTS GENERATE WEBSEARCH
        hallucination_grader answer_grader question_router
        retrieve grade_documents generate web_search) state
   = Py.Ok (match RouteQuery.datasource source with
            | RouteQuery.vectorstore => RETRIEVE
            | RouteQuery.websearch => WEBSEARCH
            end))
  /\ (WEBSEARCH <> "websearch" ->
      RouteQuery.datasource source = RouteQuery.websearch ->
      graph.route_question RETRIEVE WEBSEARCH question_router state = Py.Ok Py.PyNone).
Proof.
  intros Hllm question_router. split.
  - intros ->. unfold StateGraph.entry, StateGraph.resolve. cbn.
    unfold graph.route_question. cbn. rewrite Hllm. cbn.
    destruct source as [[|]]; cbn.
    + by rewrite lookup_insert_eq.
    + destruct (decide (RETRIEVE = "websearch")) as [-> | Hne].
      * by rewrite lookup_insert_eq.
      * rewrite lookup_insert_ne by done. by rewrite lookup_insert_eq.
  - intros Hne Hweb.
    assert (Hfalse : String.eqb "websearch" WEBSEARCH = false)
      by (apply String.eqb_neq; congruence).
    unfold graph.route_question, question_router, router_py.question_router,
      router_py.invoke.
    rewrite bind_Ok, Hllm, bind_Ok, Hweb.
    change (RouteQuery.to_str RouteQuery.websearch) with "websearch".
    by rewrite Hfalse.
Qed.

Lemma entry_follows_router_witness :
  fixture.to_websearch
    [("system", router_py.system);
     ("human", GraphState.question (sample.state []))]
  = Py.Ok (RouteQuery.mk RouteQuery.websearch)
  /\ StateGraph.entry
       (sample.workflow (router_py.question_router (Some fixture.to_websearch))
          sample.search)
       (sample.state [])
     = Py.Ok sample.WEBSEARCH.
Proof.
  split; [reflexivity |].
  exact (proj1 (entry_follows_router
                  sample.RETRIEVE sample.GRADE_DOCUMENTS sample.GENERATE sample.WEBSEARCH
                  sample.grounded (Some sample.addresses)
                  (nodes.retrieve sample.retriever) (nodes.grade_documents sample.grader)
                  (nodes.generate (generation_py.generation_chain (Some sample.says_yes)))
                  (nodes.web_search sample.search)
                  fixture.to_websearch _ (sample.state []) eq_refl)
               eq_refl).
Defined.


(** * The document store: ingestion.py *)

Section ingestion_facts.
Variable vector : Type.

Local Abbreviation points_from := (ingestion.points_from vector).
Local Abbreviation build_points := (ingestion.build_points vector).
Local Abbreviation to_documents := ingestion.to_documents.
Local Abbreviation to_document := ingestion.to_document.

Lemma points_from_length (pdf_path : string) (vectors : list vector)
    (data_urls : list string) (i : nat) (points : list (PointStruct.t vector)) :
  length (points_from pdf_path i vectors data_urls points)
  = length points + Nat.min (length vectors) (length data_urls).
Proof.
  revert data_urls i points.
  induction vectors as [|v vectors IH]; intros [|u data_urls] i points; simpl;
    try lia.
  rewrite IH, length_app. simpl. lia.
Qed.

Lemma points_from_lookup (pdf_path : string) (vectors : list vector)
    (data_urls : list string) (i : nat) (points : list (PointStruct.t vector))
    (j : nat) (v : vector) (u : string) :
  vectors !! j = Some v -> data_urls !! j = Some u ->
  points_from pdf_path i vectors data_urls points !! (length points + j)
  = Some (PointStruct.mk (i + j) v (ingestion.page_payload pdf_path (i + j) u)).
Proof.
  revert data_urls i points j.
  induction vectors as [|v0 vectors IH]; intros [|u0 data_urls] i points j Hv Hu;
    try done.
  destruct j as [|j]; simpl in Hv, Hu.
  - injection Hv as ->. injection Hu as ->. simpl.
    assert (Hkeep : forall vs us k (acc : list (PointStruct.t vector)) n p,
              acc !! n = Some p -> points_from pdf_path k vs us acc !! n = Some p).
    { clear. induction vs as [|x vs IHvs]; intros [|y us] k acc n p Hacc; simpl;
        try done.
      apply IHvs. by apply lookup_app_l_Some. }
    apply Hkeep. rewrite Nat.add_0_r, Nat.add_0_r.
    rewrite lookup_app_r by lia. by rewrite Nat.sub_diag.
  - simpl.
    specialize (IH data_urls (S i)
                  (points ++ [PointStruct.mk i v0 (ingestion.page_payload pdf_path i u0)])
                  j Hv Hu).
    rewrite length_app in IH. simpl in IH.
    replace (length points + S j) with (length points + 1 + j) by lia.
    replace (i + S j) with (S i + j) by lia.
    exact IH.
Qed.

(** X11. The points ingest_pdf writes for a PDF: as many as there are pages
    with an embedding (the shorter of the two lists), the j-th with id
    j, the j-th embedding, and a payload holding the j-th page image,
    the page number j and the PDF's path.  Ids and page numbers are the
    0-based positions of the pages. *)
Theorem build_points_spec (pdf_path : string) (vectors : list vector)
    (data_urls : list string) :
  length (build_points pdf_path vectors data_urls)
  = Nat.min (length vectors) (length data_urls)
  /\ (forall (j : nat) (v : vector) (u : string),
        vectors !! j = Some v -> data_urls !! j = Some u ->
        build_points pdf_path vectors data_urls !! j
        = Some (PointStruct.mk j v (ingestion.page_payload pdf_path j u)))
  /\ (forall (j : nat) (p : PointStruct.t vector),
        build_points pdf_path vectors data_urls !! j = Some p ->
        PointStruct.id p = j
        /\ PointStruct.payload p !! "page" = Some (Py.PyInt (Z.of_nat j))
        /\ PointStruct.payload p !! "source" = Some (Py.PyStr pdf_path)
        /\ Py.PyStr <$> data_urls !! j = PointStruct.payload p !! "page_content").
Proof.
  assert (Hlen : length (build_points pdf_path vectors data_urls)
                 = Nat.min (length vectors) (length data_urls)).
  { unfold ingestion.build_points. by rewrite points_from_length. }
  assert (Hget : forall j v u,
            vectors !! j = Some v -> data_urls !! j = Some u ->
            build_points pdf_path vectors data_urls !! j
            = Some (PointStruct.mk j v (ingestion.page_payload pdf_path j u))).
  { intros j v u Hv Hu. unfold ingestion.build_points.
    apply (points_from_lookup pdf_path vectors data_urls 0 [] j v u Hv Hu). }
  split; [exact Hlen |]. split; [exact Hget |].
  intros j p Hp.
  assert (Hj : j < Nat.min (length vectors) (length data_urls)).
  { rewrite <- Hlen. by eapply lookup_lt_Some. }
  destruct (lookup_lt_is_Some_2 vectors j) as [v Hv]; [lia |].
  destruct (lookup_lt_is_Some_2 data_urls j) as [u Hu]; [lia |].
  rewrite (Hget j v u Hv Hu) in Hp. injection Hp as <-.
  rewrite Hu. by repeat split.
Qed.

Lemma to_documents_ok (results : list ScoredPoint.t) (docs out : list Document.t) :
  to_documents results docs = Py.Ok out ->
  exists new,
    out = docs ++ new
    /\ Forall2 (fun result doc => to_document result = Py.Ok doc) results new.
Proof.
  revert docs. induction results as [|r results IH]; intros docs; simpl.
  - intros [= <-]. exists []. by rewrite app_nil_r.
  - destruct (to_document r) as [d|e] eqn:Hd; [|done].
    simpl. intros Hrest. destruct (IH _ Hrest) as (new & -> & Hall).
    exists (d :: new). split; [by rewrite <- app_assoc |]. by constructor.
Qed.

Lemma to_documents_all (results : list ScoredPoint.t) (docs new : list Document.t) :
  Forall2 (fun result doc => to_document result = Py.Ok doc) results new ->
  to_documents results docs = Py.Ok (docs ++ new).
Proof.
  intros Hall. revert docs.
  induction Hall as [|r d results new Hd _ IH]; intros docs; simpl.
  - by rewrite app_nil_r.
  - rewrite Hd. simpl. rewrite IH. by rewrite <- app_assoc.
Qed.

Lemma to_document_ok (result : ScoredPoint.t) (doc : Document.t) :
  to_document result = Py.Ok doc ->
  exists content page,
    ScoredPoint.payload result !! "page_content" = Some (Py.PyStr content)
    /\ ScoredPoint.payload result !! "page" = Some page
    /\ doc = Document.mk content
               (<["score" := Py.PyOther (ScoredPoint.score result)]>
                  (<["source" := Py.dict_get_default (ScoredPoint.payload result)
                                   "source" (Py.PyStr "")]>
                     (<["page" := page]> ∅))).
Proof.
  unfold ingestion.to_document, ingestion.subscript.
  destruct (ScoredPoint.payload result !! "page_content") as [content|]; [|done].
  destruct (ScoredPoint.payload result !! "page") as [page|]; [|done].
  destruct content as [|content| |]; simpl; try done.
  intros [= <-]. by exists content, page.
Qed.

(** A document built from a hit never carries the key that marks
    web-search text, whatever the hit's payload holds. *)
Lemma to_document_is_image (result : ScoredPoint.t) (doc : Document.t) :
  to_document result = Py.Ok doc ->
  is_image (nodes.to_image_doc doc) = true
  /\ ImageDocument.page_number (nodes.to_image_doc doc)
     = default Py.PyNone (ScoredPoint.payload result !! "page").
Proof.
  intros Hdoc. destruct (to_document_ok _ _ Hdoc) as (content & page & _ & Hpage & ->).
  rewrite Hpage. split; [|done].
  unfold is_image, Py.dict_get, nodes.to_image_doc. simpl.
  by rewrite !lookup_insert_ne, lookup_empty by done.
Qed.

End ingestion_facts.


Section retriever_facts.
Variable vector : Type.

Local Abbreviation invoke := (ingestion.invoke vector).

Lemma invoke_unfold (self : ingestion.QdrantRetriever vector) (query : string)
    (query_vector : vector) (results : list ScoredPoint.t) :
  ingestion.embed_query vector self query = Py.Ok query_vector ->
  ingestion.client_search vector self (ingestion.collection vector self) query_vector
    (ingestion.k vector self) = Py.Ok results ->
  invoke self query = ingestion.to_documents results [].
Proof.
  intros Hembed Hsearch. unfold ingestion.invoke. by rewrite Hembed, bind_Ok, Hsearch.
Qed.

Lemma to_documents_fails (results : list ScoredPoint.t) (docs : list Document.t)
    (result : ScoredPoint.t) (e : Py.exn) :
  result ∈ results -> ingestion.to_document result = Py.Raise e ->
  exists e', ingestion.to_documents results docs = Py.Raise e'.
Proof.
  intros Hin Hfail.
  destruct (ingestion.to_documents results docs) as [out|e'] eqn:Hrun; [|by exists e'].
  destruct (to_documents_ok _ _ _ Hrun) as (new & _ & Hall).
  apply list_elem_of_lookup in Hin as [i Hi].
  destruct (Forall2_lookup_l _ _ _ _ _ Hall Hi) as (d & _ & Hd). congruence.
Qed.

Example invoke_sample :
  ingestion.invoke (list Z)
    (ingestion.get_retriever (list Z) fixture.connect fixture.embed "pdf_pages" "qdrant" 6333)
    "What is his education?"
  = Py.Ok [Document.mk "data:image/png;base64,AAAA"
             (<["page" := Py.PyInt 0]>
                (<["source" := Py.PyStr "cv.pdf"]>
                   (<["score" := Py.PyOther "0.71"]> ∅)))].
Proof. vm_compute. reflexivity. Qed.

Example invoke_broken_sample :
  ingestion.invoke (list Z)
    (ingestion.get_retriever (list Z) fixture.connect_broken fixture.embed
       "pdf_pages" "qdrant" 6333)
    "What is his education?"
  = Py.Raise (Py.KeyError "page").
Proof. vm_compute. reflexivity. Qed.

(** X12. QdrantRetriever.invoke is all or nothing.  When the query is
    embedded and the search returns hits, it returns one document per
    hit, in the order of the hits, if every hit's payload has a string
    page_content and a page; if a single hit lacks page_content or page
    the whole lookup raises and the other hits are lost.  Each document
    returned carries its hit's page, score and source (the empty string
    when the payload has no source) and nothing else of the payload. *)
Theorem invoke_all_or_nothing
    (self : ingestion.QdrantRetriever vector) (query : string)
    (query_vector : vector) (results : list ScoredPoint.t) :
  ingestion.embed_query vector self query = Py.Ok query_vector ->
  ingestion.client_search vector self (ingestion.collection vector self) query_vector
    (ingestion.k vector self) = Py.Ok results ->
  (forall docs : list Document.t,
     invoke self query = Py.Ok docs ->
     length docs = length results
     /\ forall (i : nat) (result : ScoredPoint.t),
          results !! i = Some result ->
          exists content page,
            ScoredPoint.payload result !! "page_content" = Some (Py.PyStr content)
            /\ ScoredPoint.payload result !! "page" = Some page
            /\ docs !! i
               = Some (Document.mk content
                         (<["score" := Py.PyOther (ScoredPoint.score result)]>
                            (<["source" := Py.dict_get_default
                                             (ScoredPoint.payload result)
                                             "source" (Py.PyStr "")]>
                               (<["page" := page]> ∅)))))
  /\ ((forall result, result ∈ results ->
         (exists content,
            ScoredPoint.payload result !! "page_content" = Some (Py.PyStr content))
         /\ is_Some (ScoredPoint.payload result !! "page")) ->
      exists docs, invoke self query = Py.Ok docs)
  /\ (forall result, result ∈ results ->
        ScoredPoint.payload result !! "page_content" = None
        \/ ScoredPoint.payload result !! "page" = None ->
        exists key, ingestion.to_document result = Py.Raise (Py.KeyError key)
                    /\ exists e, invoke self query = Py.Raise e).
Proof.
  intros Hembed Hsearch.
  rewrite (invoke_unfold self query query_vector results Hembed Hsearch).
  split; [|split].
  - intros docs Hrun.
    destruct (to_documents_ok _ _ _ Hrun) as (new & -> & Hall). simpl.
    split; [symmetry; by eapply Forall2_length |].
    intros i result Hi.
    destruct (Forall2_lookup_l _ _ _ _ _ Hall Hi) as (d & Hd & Hdoc).
    destruct (to_document_ok _ _ Hdoc) as (content & page & Hc & Hp & ->).
    by exists content, page.
  - intros Hgood.
    assert (Hall : exists new,
               Forall2 (fun result doc => ingestion.to_document result = Py.Ok doc)
                 results new).
    { clear Hsearch. induction results as [|r rs IH]; [by exists [] |].
      destruct IH as [new Hnew].
      { intros result Hin. apply Hgood. by right. }
      destruct (Hgood r) as ((content & Hc) & (page & Hp)); [by left |].
      eexists (_ :: new). constructor; [|exact Hnew].
      unfold ingestion.to_document, ingestion.subscript. rewrite Hc, Hp. reflexivity. }
    destruct Hall as [new Hnew]. exists new.
    by rewrite (to_documents_all _ [] new Hnew).
  - intros result Hin Hmissing.
    assert (Hfail : exists key, ingestion.to_document result = Py.Raise (Py.KeyError key)).
    { unfold ingestion.to_document, ingestion.subscript.
      destruct (ScoredPoint.payload result !! "page_content") as [c|];
        [|by exists "page_content"].
      destruct Hmissing as [? | ->]; [done |]. by exists "page". }
    destruct Hfail as [key Hkey]. exists key. split; [exact Hkey |].
    by eapply to_documents_fails.
Qed.

(** X13. What ingest_pdf stores can always be retrieved.  When the hits of a
    search are points built by ingest_pdf, with whatever scores,
    retrieve does not fail on them: it returns one image-bearing
    document per hit, in order, whose content is the stored page image
    and whose page_number is the page's 0-based position in the PDF;
    the default page number 0 of retrieve is never used. *)
Theorem retrieve_after_ingest
    (self : ingestion.QdrantRetriever vector) (state : GraphState.t)
    (query_vector : vector) (hits : list ScoredPoint.t)
    (pdf_path : string) (vectors : list vector) (data_urls : list string)
    (selected : list (PointStruct.t vector)) :
  ingestion.embed_query vector self (GraphState.question state) = Py.Ok query_vector ->
  ingestion.client_search vector self (ingestion.collection vector self) query_vector
    (ingestion.k vector self) = Py.Ok hits ->
  Forall2 (fun h p => ScoredPoint.payload h = PointStruct.payload p) hits selected ->
  (forall p, p ∈ selected -> p ∈ ingestion.build_points vector pdf_path vectors data_urls) ->
  exists image_docs : list ImageDocument.t,
    nodes.retrieve (invoke self) state
    = Py.Ok (Update.mk (Some image_docs) (Some (GraphState.question state)) None None)
    /\ length image_docs = length hits
    /\ forall (i : nat) (p : PointStruct.t vector),
         selected !! i = Some p ->
         exists doc,
           image_docs !! i = Some doc
           /\ is_image doc = true
           /\ ImageDocument.page_number doc = Py.PyInt (Z.of_nat (PointStruct.id p))
           /\ Some (ImageDocument.page_content doc) = data_urls !! PointStruct.id p.
Proof.
  intros Hembed Hsearch Hhits Hstored.
  destruct (build_points_spec vector pdf_path vectors data_urls) as (_ & _ & Hpoint).
  assert (Hconv : forall h p,
            ScoredPoint.payload h = PointStruct.payload p ->
            p ∈ ingestion.build_points vector pdf_path vectors data_urls ->
            exists content,
              data_urls !! PointStruct.id p = Some content
              /\ ingestion.to_document h
                 = Py.Ok (Document.mk content
                            (<["score" := Py.PyOther (ScoredPoint.score h)]>
                               (<["source" := Py.PyStr pdf_path]>
                                  (<["page" := Py.PyInt (Z.of_nat (PointStruct.id p))]>
                                     ∅))))).
  { intros h p Hpayload Hin.
    apply list_elem_of_lookup in Hin as [j Hj].
    destruct (Hpoint j p Hj) as (Hid & Hpage & Hsource & Hcontent).
    rewrite Hid.
    destruct (data_urls !! j) as [content|] eqn:Hurl.
    2:{ exfalso. simpl in Hcontent.
        assert (Hlen : j < length (ingestion.build_points vector pdf_path vectors data_urls))
          by (by eapply lookup_lt_Some).
        destruct (build_points_spec vector pdf_path vectors data_urls) as (Hl & _ & _).
        apply lookup_ge_None in Hurl. lia. }
    exists content. split; [done |].
    unfold ingestion.to_document, ingestion.subscript, Py.dict_get_default.
    rewrite Hpayload, <- Hcontent, Hpage, Hsource. reflexivity. }
  assert (Hdocs : exists docs,
             Forall2 (fun h d => ingestion.to_document h = Py.Ok d) hits docs
             /\ forall i p, selected !! i = Some p ->
                  exists d content,
                    docs !! i = Some d
                    /\ data_urls !! PointStruct.id p = Some content
                    /\ nodes.to_image_doc d
                       = ImageDocument.mk content
                           (Py.PyInt (Z.of_nat (PointStruct.id p)))
                           (Document.metadata d)
                    /\ is_image (nodes.to_image_doc d) = true).
  { clear Hsearch. induction Hhits as [|h p hits selected Hhp Hrest IH].
    - exists []. split; [constructor | done].
    - destruct IH as (docs & Hall & Hlook).
      { intros q Hq. apply Hstored. by right. }
      destruct (Hconv h p Hhp) as (content & Hurl & Hdoc); [apply Hstored; by left |].
      eexists (_ :: docs). split; [constructor; [exact Hdoc | exact Hall] |].
      intros [|i] q Hq; simpl in Hq.
      + injection Hq as <-. eexists _, content. split; [reflexivity |].
        split; [done |]. split; [reflexivity |].
        exact (proj1 (to_document_is_image _ _ Hdoc)).
      + exact (Hlook i q Hq). }
  destruct Hdocs as (docs & Hall & Hlook).
  exists (map nodes.to_image_doc docs).
  split.
  { unfold nodes.retrieve.
    rewrite (invoke_unfold self _ query_vector hits Hembed Hsearch).
    rewrite (to_documents_all hits [] docs Hall). simpl.
    by rewrite fold_left_append_map. }
  split; [rewrite length_map; symmetry; by eapply Forall2_length |].
  intros i p Hp. destruct (Hlook i p Hp) as (d & content & Hd & Hurl & Himg & Hisimg).
  exists (nodes.to_image_doc d).
  split; [by rewrite (list_lookup_fmap nodes.to_image_doc), Hd |].
  split; [exact Hisimg |]. rewrite Himg. by split.
Qed.

(** X14. get_retriever builds its retriever with k = 1: the search is asked
    for a single hit.  So when the store honours the limit it is given,
    the retrieve node hands at most one document to the rest of the
    turn. *)
Theorem retrieve_at_most_one_document
    (connect : string -> Z -> string -> vector -> nat -> Py.result (list ScoredPoint.t))
    (embed : string -> Py.result vector)
    (collection host : string) (port : Z)
    (state : GraphState.t) (update : Update.t) :
  (forall query_vector limit hits,
     connect host port collection query_vector limit = Py.Ok hits ->
     length hits <= limit) ->
  nodes.retrieve
    (invoke (ingestion.get_retriever vector connect embed collection host port)) state
  = Py.Ok update ->
  exists image_docs,
    Update.documents update = Some image_docs /\ length image_docs <= 1.
Proof.
  intros Hlimit. unfold nodes.retrieve, ingestion.invoke. simpl.
  destruct (embed _) as [query_vector|e]; [|done]. simpl.
  destruct (connect host port collection query_vector 1) as [hits|e] eqn:Hsearch; [|done].
  simpl. destruct (ingestion.to_documents hits []) as [docs|e] eqn:Hdocs; [|done].
  simpl. intros [= <-]. eexists. split; [reflexivity |].
  rewrite fold_left_append_map, app_nil_l, length_map.
  destruct (to_documents_ok _ _ _ Hdocs) as (new & -> & Hall). simpl.
  rewrite <- (Forall2_length _ _ _ Hall). by eapply Hlimit.
Qed.

End retriever_facts.

Lemma invoke_all_or_nothing_witness :
  fixture.embed "What is his education?" = Py.Ok [5; 6]%Z
  /\ fixture.connect_broken "qdrant" 6333 "pdf_pages" [5; 6]%Z 1
     = Py.Ok [ScoredPoint.mk
                (<["page_content" := Py.PyStr "data:image/png;base64,AAAA"]> ∅) "0.71"]
  /\ exists e,
       ingestion.invoke (list Z)
         (ingestion.get_retriever (list Z) fixture.connect_broken fixture.embed
            "pdf_pages" "qdrant" 6333)
         "What is his education?"
       = Py.Raise e.
Proof.
  split; [reflexivity |]. split; [reflexivity |].
  destruct (proj2 (proj2 (invoke_all_or_nothing (list Z)
              (ingestion.get_retriever (list Z) fixture.connect_broken fixture.embed
                 "pdf_pages" "qdrant" 6333)
              "What is his education?" _ _ eq_refl eq_refl))
              (ScoredPoint.mk
                 (<["page_content" := Py.PyStr "data:image/png;base64,AAAA"]> ∅) "0.71"))
    as (key & _ & Hraise).
  - by left.
  - by right.
  - exact Hraise.
Defined.



Lemma retrieve_after_ingest_witness :
  let self :=
    {| ingestion.client_search := fixture.connect "qdrant" 6333;
       ingestion.embed_query := fixture.embed;
       ingestion.collection := "pdf_pages";
       ingestion.k := 2 |} in
  fixture.embed (GraphState.question (sample.state [])) = Py.Ok [5; 6]%Z
  /\ fixture.connect "qdrant" 6333 "pdf_pages" [5; 6]%Z 2
     = Py.Ok (map (ingestion.hit (list Z) "0.71") fixture.stored)
  /\ exists image_docs : list ImageDocument.t,
       nodes.retrieve (ingestion.invoke (list Z) self) (sample.state [])
       = Py.Ok (Update.mk (Some image_docs) (Some "What is his education?") None None)
       /\ length image_docs = 2.
Proof.
  intros self.
  split; [reflexivity |]. split; [reflexivity |].
  assert (Hhits : Forall2 (fun h p => ScoredPoint.payload h = PointStruct.payload p)
                    (map (ingestion.hit (list Z) "0.71") fixture.stored) fixture.stored).
  { repeat constructor. }
  destruct (retrieve_after_ingest (list Z) self (sample.state []) [5; 6]%Z
              (map (ingestion.hit (list Z) "0.71") fixture.stored)
              "cv.pdf" [[1; 2]; [3; 4]]%Z
              ["data:image/png;base64,AAAA"; "data:image/png;base64,BBBB"]
              fixture.stored eq_refl eq_refl Hhits (fun p Hp => Hp))
    as (image_docs & Hrun & Hlen & _).
  exists image_docs. split; [exact Hrun | exact Hlen].
Defined.

Lemma retrieve_at_most_one_document_witness :
  (forall (query_vector : list Z) (limit : nat) (hits : list ScoredPoint.t),
     fixture.connect "qdrant" 6333 "pdf_pages" query_vector limit = Py.Ok hits ->
     length hits <= limit)
  /\ exists image_docs,
       nodes.retrieve
         (ingestion.invoke (list Z)
            (ingestion.get_retriever (list Z) fixture.connect fixture.embed
               "pdf_pages" "qdrant" 6333))
         (sample.state [])
       = Py.Ok (Update.mk (Some image_docs) (Some "What is his education?") None None)
       /\ length image_docs <= 1.
Proof.
  assert (Hlimit : forall (query_vector : list Z) (limit : nat) (hits : list ScoredPoint.t),
            fixture.connect "qdrant" 6333 "pdf_pages" query_vector limit = Py.Ok hits ->
            length hits <= limit).
  { intros query_vector limit hits [= <-]. rewrite length_take. lia. }
  split; [exact Hlimit |].
  destruct (retrieve_at_most_one_document (list Z) fixture.connect fixture.embed
              "pdf_pages" "qdrant" 6333 (sample.state []) _ Hlimit eq_refl)
    as (image_docs & Hdocs & Hlen).
  exists image_docs. split; [|exact Hlen].
  simpl in Hdocs. injection Hdocs as <-. reflexivity.
Defined.

(** * The service: agentic_rag_service.py *)

Section service_facts.
Variable agentic_rag_graph : option (GraphState.t -> Py.result GraphState.t).
Variable path_exists : string -> bool.
Variable ingest : string -> Py.result unit.

Local Abbreviation query := (AgenticRAGService.query agentic_rag_graph).
Local Abbreviation ingest_pdf := (AgenticRAGService.ingest_pdf path_exists ingest).

Lemma set_session_lookup (self : AgenticRAGService.t) (session_id other : string)
    (session : Session.t) :
  AgenticRAGService.session_states
    (AgenticRAGService.set_session self session_id session) !! other
  = if decide (session_id = other) then Some session
    else AgenticRAGService.session_states self !! other.
Proof.
  unfold AgenticRAGService.set_session. simpl. apply lookup_insert.
Qed.

(** X15. A query before any upload is refused with a ValueError and changes
    nothing.  After an upload a query never raises: whatever the graph
    does, the caller gets a response text; the service stays
    initialised and no session other than the one queried is touched. *)
Theorem query_total_and_local
    (self : AgenticRAGService.t) (question session_id : string) :
  (AgenticRAGService.is_initialized self = false ->
   query self question session_id
   = (self, AgenticRAGService.ValueError
              "PDF not uploaded yet. Please upload a PDF first."))
  /\ (AgenticRAGService.is_initialized self = true ->
      exists self' response,
        query self question session_id = (self', AgenticRAGService.Returned response)
        /\ AgenticRAGService.is_initialized self' = true
        /\ AgenticRAGService.dependencies_available self'
           = AgenticRAGService.dependencies_available self
        /\ AgenticRAGService.current_pdf_path self'
           = AgenticRAGService.current_pdf_path self
        /\ forall other, other <> session_id ->
             AgenticRAGService.session_states self' !! other
             = AgenticRAGService.session_states self !! other).
Proof.
  unfold AgenticRAGService.query. split.
  - by intros ->.
  - intros Hinit. rewrite Hinit. simpl.
    destruct (AgenticRAGService.query_body _ _ _ _) as [[[session|] response]|e].
    + eexists _, _. split; [reflexivity |]. repeat split; try done.
      intros other Hne. rewrite set_session_lookup. by case_decide.
    + eexists _, _. split; [reflexivity |]. by repeat split.
    + eexists _, _. split; [reflexivity |]. by repeat split.
Qed.

(** X16. When the graph runs to the end for a session that is new or has a
    history, query answers with the formatted response and appends
    exactly one exchange to that session's history: the question, the
    graph's final generation, the number of documents in its final state
    and its web_search flag.  The graph is started from the question
    with empty documents, so nothing of earlier turns reaches it. *)
Theorem query_records_exchange
    (self : AgenticRAGService.t) (question session_id : string)
    (invoke : GraphState.t -> Py.result GraphState.t) (result : GraphState.t) :
  AgenticRAGService.is_initialized self = true ->
  AgenticRAGService.dependencies_available self = true ->
  agentic_rag_graph = Some invoke ->
  invoke (GraphState.mk question "" false []) = Py.Ok result ->
  (forall session,
     AgenticRAGService.session_states self !! session_id = Some session ->
     is_Some (Session.conversation_history session)) ->
  let exchange :=
    Exchange.mk question (GraphState.generation result)
      (length (GraphState.documents result)) (GraphState.web_search result) in
  exists self',
    query self question session_id
    = (self', AgenticRAGService.Returned
                (AgenticRAGService.format_response question
                   (GraphState.generation result)
                   (length (GraphState.documents result))
                   (GraphState.web_search result)))
    /\ AgenticRAGService.get_conversation_history self' session_id
       = AgenticRAGService.get_conversation_history self session_id ++ [exchange].
Proof.
  intros Hinit Hdeps Hgraph Hrun Hhistory exchange.
  unfold AgenticRAGService.query, AgenticRAGService.query_body,
    AgenticRAGService.get_conversation_history.
  rewrite Hinit, Hgraph, Hdeps. simpl. rewrite Hrun. simpl.
  destruct (AgenticRAGService.session_states self !! session_id) as [session|] eqn:Hs.
  - destruct (Hhistory session eq_refl) as [history Hh]. simpl. rewrite Hh. simpl.
    eexists. split; [reflexivity |].
    rewrite set_session_lookup. by case_decide.
  - simpl. eexists. split; [reflexivity |].
    rewrite set_session_lookup. by case_decide.
Qed.

(** X17. An upload whose ingestion raised still reports success, but leaves
    the session without a history.  From then on a query in that
    session is answered with the error response naming
    'conversation_history', even though the graph ran to the end, and
    nothing is recorded; clearing the session gives it a history, after
    which the same query is answered and recorded. *)
Theorem query_after_failed_ingest
    (self : AgenticRAGService.t) (pdf_path question session_id : string)
    (invoke : GraphState.t -> Py.result GraphState.t) (result : GraphState.t)
    (e : Py.exn) :
  AgenticRAGService.dependencies_available self = true ->
  path_exists pdf_path = true ->
  ingest pdf_path = Py.Raise e ->
  agentic_rag_graph = Some invoke ->
  invoke (GraphState.mk question "" false []) = Py.Ok result ->
  let uploaded := ingest_pdf self pdf_path session_id in
  let cleared := AgenticRAGService.clear_session (fst uploaded) session_id in
  snd uploaded = true
  /\ AgenticRAGService.is_ready (fst uploaded) = true
  /\ query (fst uploaded) question session_id
     = (fst uploaded,
        AgenticRAGService.Returned
          (AgenticRAGService.generate_error_response question "'conversation_history'"))
  /\ AgenticRAGService.get_conversation_history (fst uploaded) session_id = []
  /\ snd cleared = true
  /\ AgenticRAGService.get_conversation_history
       (fst (query (fst cleared) question session_id)) session_id
     = [Exchange.mk question (GraphState.generation result)
          (length (GraphState.documents result)) (GraphState.web_search result)].
Proof.
  intros Hdeps Hexists Hingest Hgraph Hrun uploaded cleared.
  assert (Hup : uploaded
                = (AgenticRAGService.mk true (AgenticRAGService.current_pdf_path self) true
                     (<[session_id := AgenticRAGService.placeholder_session pdf_path]>
                        (AgenticRAGService.session_states self)),
                   true)).
  { subst uploaded. unfold AgenticRAGService.ingest_pdf.
    by rewrite Hdeps, Hexists, Hingest. }
  assert (Hcl : cleared
                = (AgenticRAGService.mk true (AgenticRAGService.current_pdf_path self) true
                     (<[session_id := Session.mk (Some true) (Some pdf_path) (Some [])]>
                        (AgenticRAGService.session_states self)),
                   true)).
  { subst cleared. rewrite Hup. unfold AgenticRAGService.clear_session. simpl.
    rewrite lookup_insert_eq. unfold AgenticRAGService.set_session. simpl.
    by rewrite insert_insert_eq. }
  rewrite Hup, Hcl. simpl.
  split; [done |]. split; [done |].
  split.
  { unfold AgenticRAGService.query, AgenticRAGService.query_body. simpl.
    rewrite Hgraph, lookup_insert_eq. simpl. by rewrite Hrun. }
  split.
  { unfold AgenticRAGService.get_conversation_history. simpl.
    by rewrite lookup_insert_eq. }
  split; [done |].
  unfold AgenticRAGService.query, AgenticRAGService.query_body,
    AgenticRAGService.get_conversation_history. simpl.
  rewrite Hgraph, lookup_insert_eq. simpl. rewrite Hrun. simpl.
  by rewrite lookup_insert_eq.
Qed.

(** X18. clear_session answers False for a session it does not know and
    changes nothing; for a known session it answers True, empties that
    session's history (creating it when it was missing), keeps the
    session's record of the upload, and touches no other session. *)
Theorem clear_session_spec (self : AgenticRAGService.t) (session_id : string) :
  (AgenticRAGService.session_states self !! session_id = None ->
   AgenticRAGService.clear_session self session_id = (self, false))
  /\ (forall session,
        AgenticRAGService.session_states self !! session_id = Some session ->
        exists self',
          AgenticRAGService.clear_session self session_id = (self', true)
          /\ AgenticRAGService.get_conversation_history self' session_id = []
          /\ AgenticRAGService.session_states self' !! session_id
             = Some (Session.mk (Session.pdf_processed session)
                       (Session.pdf_path session) (Some []))
          /\ AgenticRAGService.is_initialized self'
             = AgenticRAGService.is_initialized self
          /\ forall other, other <> session_id ->
               AgenticRAGService.session_states self' !! other
               = AgenticRAGService.session_states self !! other).
Proof.
  unfold AgenticRAGService.clear_session. split.
  - by intros ->.
  - intros session ->. eexists. split; [reflexivity |].
    unfold AgenticRAGService.get_conversation_history.
    rewrite !set_session_lookup. case_decide; [|done].
    repeat split; try done.
    intros other Hne. rewrite set_session_lookup. by case_decide.
Qed.

(** X19. ingest_pdf answers False in one case only: the dependencies are
    available and the file is not there; the service is then unchanged.
    In every other case, also when the ingestion itself raised, it
    answers True, marks the service initialised and stores a session
    for the upload; that session has a (fresh, empty) history only when
    the ingestion really ran and succeeded. *)
Theorem ingest_pdf_outcomes
    (self : AgenticRAGService.t) (pdf_path session_id : string) :
  let uploaded := ingest_pdf self pdf_path session_id in
  (snd uploaded = false
   <-> AgenticRAGService.dependencies_available self = true
       /\ path_exists pdf_path = false)
  /\ (snd uploaded = false -> fst uploaded = self)
  /\ (snd uploaded = true ->
      AgenticRAGService.is_ready (fst uploaded) = true
      /\ exists session,
           AgenticRAGService.session_states (fst uploaded) !! session_id = Some session
           /\ Session.pdf_path session = Some pdf_path
           /\ (is_Some (Session.conversation_history session)
               <-> AgenticRAGService.dependencies_available self = true
                   /\ ingest pdf_path = Py.Ok tt)).
Proof.
  intros uploaded. subst uploaded. unfold AgenticRAGService.ingest_pdf.
  destruct (AgenticRAGService.dependencies_available self) eqn:Hdeps; simpl.
  - destruct (path_exists pdf_path) eqn:Hexists; simpl.
    + destruct (ingest pdf_path) as [[]|e] eqn:Hingest; simpl.
      * split; [split; [done | by intros [_ ?]] |]. split; [done |].
        intros _. split; [done |]. eexists. rewrite lookup_insert_eq.
        split; [reflexivity |]. split; [done |]. simpl. split; [done | by eexists].
      * split; [split; [done | by intros [_ ?]] |]. split; [done |].
        intros _. split; [done |]. eexists. rewrite lookup_insert_eq.
        split; [reflexivity |]. split; [done |]. simpl.
        split; [by intros [? ?] | by intros [_ ?]].
    + split; [done |]. split; [done | done].
  - split; [split; [done | by intros [? _]] |]. split; [done |].
    intros _. split; [done |]. eexists. rewrite lookup_insert_eq.
    split; [reflexivity |]. split; [done |]. simpl.
    split; [by intros [? ?] | by intros [? _]].
Qed.

End service_facts.


Lemma query_records_exchange_witness :
  let self := AgenticRAGService.mk true (Some "storage/uploads/cv.pdf") true
                (<["default" := Session.mk (Some true) (Some "storage/uploads/cv.pdf")
                                  (Some [])]> ∅) in
  fixture.answering (GraphState.mk "What is his education?" "" false [])
  = Py.Ok (GraphState.mk "What is his education?" "Cairo University." true
             [sample.page0; sample.snippet])
  /\ exists self',
       AgenticRAGService.query (Some fixture.answering) self
         "What is his education?" "default"
       = (self', AgenticRAGService.Returned
                   (AgenticRAGService.format_response "What is his education?"
                      "Cairo University." 2 true))
       /\ AgenticRAGService.get_conversation_history self' "default"
          = [Exchange.mk "What is his education?" "Cairo University." 2 true].
Proof.
  intros self. split; [reflexivity |].
  assert (Hhistory : forall session,
            AgenticRAGService.session_states self !! "default" = Some session ->
            is_Some (Session.conversation_history session)).
  { intros session Hs. vm_compute in Hs. injection Hs as <-. by eexists. }
  exact (query_records_exchange (Some fixture.answering) self
           "What is his education?" "default" fixture.answering _
           eq_refl eq_refl eq_refl eq_refl Hhistory).
Defined.

Lemma query_after_failed_ingest_witness :
  let self := AgenticRAGService.init fixture.full_environ true in
  AgenticRAGService.dependencies_available self = true
  /\ fixture.on_disk "storage/uploads/cv.pdf" = true
  /\ fixture.ingest_fails "storage/uploads/cv.pdf"
     = Py.Raise (Py.ServiceError "Connection refused")
  /\ AgenticRAGService.query (Some fixture.answering)
       (fst (AgenticRAGService.ingest_pdf fixture.on_disk fixture.ingest_fails self
               "storage/uploads/cv.pdf" "default"))
       "What is his education?" "default"
     = (fst (AgenticRAGService.ingest_pdf fixture.on_disk fixture.ingest_fails self
               "storage/uploads/cv.pdf" "default"),
        AgenticRAGService.Returned
          (AgenticRAGService.generate_error_response "What is his education?"
             "'conversation_history'")).
Proof.
  intros self.
  split; [reflexivity |]. split; [reflexivity |]. split; [reflexivity |].
  exact (proj1 (proj2 (proj2
           (query_after_failed_ingest (Some fixture.answering) fixture.on_disk
              fixture.ingest_fails self "storage/uploads/cv.pdf"
              "What is his education?" "default" fixture.answering _ _
              eq_refl eq_refl eq_refl eq_refl eq_refl)))).
Defined.

Example query_graph_failure_sample :
  snd (AgenticRAGService.query (Some fixture.crashing)
         (AgenticRAGService.mk true None true ∅) "What is his education?" "default")
  = AgenticRAGService.Returned
      (AgenticRAGService.generate_error_response "What is his education?"
         "Recursion limit of 25 reached").
Proof. reflexivity. Qed.

Lemma check_dependencies_true (environ : gmap string string) (available : bool) :
  AgenticRAGService.check_dependencies environ available = true
  <-> available = true
      /\ AgenticRAGService.env_set environ "COHERE_API_KEY" = true
      /\ AgenticRAGService.env_set environ "GOOGLE_API_KEY" = true
      /\ AgenticRAGService.env_set environ "TAVILY_API_KEY" = true.
Proof.
  unfold AgenticRAGService.check_dependencies. simpl.
  destruct (AgenticRAGService.env_set environ "COHERE_API_KEY"),
    (AgenticRAGService.env_set environ "GOOGLE_API_KEY"),
    (AgenticRAGService.env_set environ "TAVILY_API_KEY"), available; simpl;
    intuition congruence.
Qed.

(** X20. A service created while one of the three API keys is unset or
    empty, or while the graph could not be imported, never runs the
    graph: every upload is accepted without looking at the file or
    ingesting it, and every later query gets the placeholder response
    and leaves the service as it is, with no history recorded. *)
Theorem placeholder_mode
    (agentic_rag_graph : option (GraphState.t -> Py.result GraphState.t))
    (path_exists : string -> bool) (ingest : string -> Py.result unit)
    (environ : gmap string string) (agentic_rag_available : bool)
    (pdf_path question session_id : string) :
  agentic_rag_available = false
  \/ AgenticRAGService.env_set environ "COHERE_API_KEY" = false
  \/ AgenticRAGService.env_set environ "GOOGLE_API_KEY" = false
  \/ AgenticRAGService.env_set environ "TAVILY_API_KEY" = false ->
  let created := AgenticRAGService.init environ agentic_rag_available in
  let uploaded :=
    AgenticRAGService.ingest_pdf path_exists ingest created pdf_path session_id in
  AgenticRAGService.dependencies_available created = false
  /\ uploaded
     = (AgenticRAGService.mk true None false
          (<[session_id := AgenticRAGService.placeholder_session pdf_path]> ∅),
        true)
  /\ AgenticRAGService.query agentic_rag_graph (fst uploaded) question session_id
     = (fst uploaded,
        AgenticRAGService.Returned
          (AgenticRAGService.generate_placeholder_response question
             (AgenticRAGService.placeholder_session pdf_path)))
  /\ AgenticRAGService.get_conversation_history (fst uploaded) session_id = [].
Proof.
  intros Hmissing created uploaded.
  assert (Hdeps : AgenticRAGService.check_dependencies environ agentic_rag_available
                  = false).
  { destruct (AgenticRAGService.check_dependencies environ agentic_rag_available)
      eqn:Hcheck; [|done].
    apply check_dependencies_true in Hcheck as (Ha & Hc & Hg & Ht).
    destruct Hmissing as [? | [? | [? | ?]]]; congruence. }
  assert (Hup : uploaded
                = (AgenticRAGService.mk true None false
                     (<[session_id := AgenticRAGService.placeholder_session pdf_path]> ∅),
                   true)).
  { subst uploaded created. unfold AgenticRAGService.ingest_pdf, AgenticRAGService.init.
    simpl. by rewrite Hdeps. }
  split; [exact Hdeps |]. split; [exact Hup |].
  rewrite Hup. simpl. split.
  - unfold AgenticRAGService.query, AgenticRAGService.query_body. simpl.
    rewrite lookup_insert_eq. simpl. by destruct agentic_rag_graph.
  - unfold AgenticRAGService.get_conversation_history. simpl.
    by rewrite lookup_insert_eq.
Qed.

Lemma placeholder_mode_witness :
  (true = false
   \/ AgenticRAGService.env_set (delete "TAVILY_API_KEY" fixture.full_environ)
        "COHERE_API_KEY" = false
   \/ AgenticRAGService.env_set (delete "TAVILY_API_KEY" fixture.full_environ)
        "GOOGLE_API_KEY" = false
   \/ AgenticRAGService.env_set (delete "TAVILY_API_KEY" fixture.full_environ)
        "TAVILY_API_KEY" = false)
  /\ AgenticRAGService.dependencies_available
       (AgenticRAGService.init (delete "TAVILY_API_KEY" fixture.full_environ) true)
     = false.
Proof.
  assert (Hmissing :
            true = false
            \/ AgenticRAGService.env_set (delete "TAVILY_API_KEY" fixture.full_environ)
                 "COHERE_API_KEY" = false
            \/ AgenticRAGService.env_set (delete "TAVILY_API_KEY" fixture.full_environ)
                 "GOOGLE_API_KEY" = false
            \/ AgenticRAGService.env_set (delete "TAVILY_API_KEY" fixture.full_environ)
                 "TAVILY_API_KEY" = false).
  { right. right. right. reflexivity. }
  split; [exact Hmissing |].
  exact (proj1 (placeholder_mode (Some fixture.answering) fixture.on_disk fixture.ingest_ok
                  (delete "TAVILY_API_KEY" fixture.full_environ) true
                  "storage/uploads/cv.pdf" "What is his education?" "default"
                  Hmissing)).
Defined.
